(** * Verification of litestar's signature model
      ([litestar/_signature/model.py])

    The development embeds the request-signature validation code of
    [litestar._signature.model] and settles the properties its
    specification states about it.  Python values are a small universe
    [PyValue]; dictionaries whose iteration order is observable are
    association lists, the raw kwargs are a [gmap], the dependency name
    set is a [gset]; raising code returns a [Result]. *)

From Stdlib Require Import ZArith Ascii String.
From stdpp Require Import base strings list gmap pretty.

Local Open Scope string_scope.
Local Open Scope list_scope.

(** ** Python strings *)

(** [s.startswith(p)]. *)
Definition startswith (s p : string) : bool := String.prefix p s.

(** [sep.join(parts)]. *)
Definition str_join (sep : string) (parts : list string) : string :=
  String.concat sep parts.

(** [s.split(sep)[0]] for a non-empty separator: the text before the
    leftmost occurrence of [sep], the whole of [s] when there is none. *)
Fixpoint split_head (sep s : string) {struct s} : string :=
  if String.prefix sep s then EmptyString
  else match s with
       | EmptyString => EmptyString
       | String c s' => String c (split_head sep s')
       end.

(** [s.replace(old, new)] for a non-empty [old]: occurrences are replaced
    from the left and do not overlap; [skip] counts the characters of a
    replaced occurrence that are still to be consumed. *)
Fixpoint replace_from (old new : string) (skip : nat) (s : string) {struct s} : string :=
  match s with
  | EmptyString => EmptyString
  | String c s' =>
      match skip with
      | S k => replace_from old new k s'
      | O =>
          if String.prefix old s
          then new +:+ replace_from old new (String.length old - 1) s'
          else String c (replace_from old new 0 s')
      end
  end.

Definition str_replace (old new s : string) : string := replace_from old new 0 s.

(** [sub in s] on strings. *)
Fixpoint str_contains (sub s : string) {struct s} : bool :=
  String.prefix sub s ||
  match s with
  | EmptyString => false
  | String _ s' => str_contains sub s'
  end.

(** The last character of a string, if any. *)
Fixpoint str_last (s : string) : option ascii :=
  match s with
  | EmptyString => None
  | String c EmptyString => Some c
  | String _ s' => str_last s'
  end.

(** *** [ERR_RE = re.compile(r"`\$\.(.+)`$")] *)

Definition newline : ascii := "010"%char.

Definition is_newline (c : ascii) : bool := bool_decide (c = newline).

(** The part of the pattern after the literal prefix, matched at the
    start of [s]: [(.+)] followed by a backquote and [$].  Without
    [re.MULTILINE], [$] matches at the end of the string and before a
    newline that ends it; [.] does not match a newline. *)
Fixpoint match_group_tail (s : string) : option string :=
  match s with
  | EmptyString => None
  | String c s' =>
      if is_newline c then None
      else match match_group_tail s' with
           | Some g => Some (String c g)
           | None =>
               if bool_decide (s' = "`") || bool_decide (s' = String "`" (String newline EmptyString))
               then Some (String c EmptyString)
               else None
           end
  end.

(** The pattern matched at the start of [s]. *)
Definition ERR_RE_match_here (s : string) : option string :=
  match s with
  | String "`" (String "$" (String "." rest)) => match_group_tail rest
  | _ => None
  end.

(** [ERR_RE.search(s)] followed by [match.group(1)]: the leftmost match. *)
Fixpoint ERR_RE_search (s : string) : option string :=
  match ERR_RE_match_here s with
  | Some g => Some g
  | None =>
      match s with
      | EmptyString => None
      | String _ s' => ERR_RE_search s'
      end
  end.

(** ** Python values *)

(** The values the model handles: [None], litestar's [Empty] sentinel,
    scalars, dictionaries and opaque objects. *)
#[warning="-register-all"] Inductive PyValue : Type :=
| PyNone
| PyEmpty
| PyBool (b : bool)
| PyInt (z : Z)
| PyStr (s : string)
| PyDict (items : list (string * PyValue))
| PyObj (cls : string) (ident : nat).

(** Truth value of an object in a condition. *)
Definition truthy (v : PyValue) : bool :=
  match v with
  | PyNone => false
  | PyEmpty => true
  | PyBool b => b
  | PyInt z => negb (z =? 0)%Z
  | PyStr s => negb (bool_decide (s = ""))
  | PyDict items => negb (bool_decide (length items = 0))
  | PyObj _ _ => true
  end.

Definition is_none (v : PyValue) : bool :=
  match v with PyNone => true | _ => false end.

(** *** Insertion-ordered dictionaries with string keys *)

Section Dict.
Context {V : Type}.

Fixpoint dict_get (d : list (string * V)) (k : string) : option V :=
  match d with
  | [] => None
  | (k', v) :: d' => if bool_decide (k' = k) then Some v else dict_get d' k
  end.

(** [d[k] = v]: an existing key keeps its position. *)
Fixpoint dict_set (d : list (string * V)) (k : string) (v : V) : list (string * V) :=
  match d with
  | [] => [(k, v)]
  | (k', v') :: d' =>
      if bool_decide (k' = k) then (k, v) :: d' else (k', v') :: dict_set d' k v
  end.

Fixpoint dict_del (d : list (string * V)) (k : string) : list (string * V) :=
  match d with
  | [] => []
  | (k', v') :: d' =>
      if bool_decide (k' = k) then d' else (k', v') :: dict_del d' k
  end.

Definition dict_keys (d : list (string * V)) : list string := d.*1.

Definition dict_has (d : list (string * V)) (k : string) : bool :=
  bool_decide (k ∈ dict_keys d).
End Dict.

(** ** Results of code that can raise *)

Inductive Result (E A : Type) : Type :=
| Ok (a : A)
| Raise (e : E).
Arguments Ok {E A} a.
Arguments Raise {E A} e.

(** ** Data model *)

(** [litestar.enums.ParamType]. *)
Inductive ParamType : Type := PATH | QUERY | COOKIE | HEADER.

(** [Literal["body"] | ParamType]. *)
Inductive Source : Type :=
| SourceBody
| SourceParam (p : ParamType).

(** [class ErrorMessage(TypedDict)]: [key] and [source] are
    [NotRequired], an absent entry is [None] here. *)
Record ErrorMessage : Type := mkErrorMessage {
  key : option string;
  message : string;
  source : option Source;
}.

(** One element of [exc["loc"]]: a field name or an index. *)
Inductive LocItem : Type :=
| LocName (s : string)
| LocIndex (n : N).

(** [str(loc)]. *)
Definition loc_str (l : LocItem) : string :=
  match l with
  | LocName s => s
  | LocIndex n => pretty n
  end.

(** One entry of [ExtendedMsgSpecValidationError.errors]. *)
Record SubError : Type := mkSubError {
  loc : list LocItem;
  msg : string;
}.

(** The exceptions that occur.  [ValidationError] is msgspec's decode
    failure, [ExtendedMsgSpecValidationError] its subclass that carries
    per-field [errors]; [text] is what [str] returns for the exception. *)
Inductive Exception : Type :=
| ValidationException (detail : string) (extra : list ErrorMessage)
| InternalServerException
| ExtendedMsgSpecValidationError (errors : list SubError) (text : string)
| ValidationError (text : string)
| KeyError (k : string)
| OtherException (cls : string) (text : string).

(** [str(exc)]; a [KeyError] shows the repr of its key. *)
Definition exc_str (e : Exception) : string :=
  match e with
  | ValidationException detail _ => detail
  | InternalServerException => "Internal Server Error"
  | ExtendedMsgSpecValidationError _ text => text
  | ValidationError text => text
  | KeyError k => "'" +:+ k +:+ "'"
  | OtherException _ text => text
  end.

(** The two exceptions a request can end with. *)
Definition is_request_exception (e : Exception) : bool :=
  match e with
  | ValidationException _ _ | InternalServerException => true
  | _ => false
  end.

(** msgspec's decode failures. *)
Definition is_decode_failure (e : Exception) : bool :=
  match e with
  | ExtendedMsgSpecValidationError _ _ | ValidationError _ => true
  | _ => false
  end.

(** A [msgspec.Meta] object, kept as the keyword arguments [meta_kwargs]
    it was built from. *)
Record Meta : Type := mkMeta { meta_kwargs : list (string * PyValue) }.

(** Type annotations.  [TOptional], [TUnion] and [TAnnotated] are what
    [Optional[...]], [Union[...]] and [Annotated[...]] build. *)
#[warning="-register-all"] Inductive Annotation : Type :=
| TAny
| TNoneType
| TClass (name : string)
| TGeneric (origin : string) (args : list Annotation)
| TOptional (a : Annotation)
| TUnion (members : list Annotation)
| TAnnotated (a : Annotation) (meta : Meta).

(** [annotation is type(None)]. *)
Definition is_none_type (a : Annotation) : bool :=
  match a with TNoneType => true | _ => false end.

(** [annotation is Any]. *)
Definition is_any (a : Annotation) : bool :=
  match a with TAny => true | _ => false end.

(** A decoder [(target_type, value) -> value], as in [dec_hook] and in
    the second component of a type decoder. *)
Definition Decoder : Type := Annotation -> PyValue -> Result Exception PyValue.

(** An entry of [type_decoders]: predicate and decoder. *)
Definition TypeDecoder : Type := ((Annotation -> bool) * Decoder)%type.

(** The classes of [litestar.params]: [ParameterKwarg] and [BodyKwarg]
    derive from [KwargDefinition], [DependencyKwarg] does not. *)
Inductive KwargClass : Type :=
| KwargDefinition
| ParameterKwarg
| BodyKwarg
| DependencyKwarg.

(** An instance of one of these dataclasses: its class and its fields in
    declaration order. *)
Record KwargObject : Type := mkKwargObject {
  kwarg_class : KwargClass;
  kwarg_fields : list (string * PyValue);
}.

(** [isinstance(k, KwargDefinition)]. *)
Definition isinstance_KwargDefinition (k : KwargObject) : bool :=
  match kwarg_class k with
  | DependencyKwarg => false
  | _ => true
  end.

(** [isinstance(k, ParameterKwarg)]. *)
Definition isinstance_ParameterKwarg (k : KwargObject) : bool :=
  match kwarg_class k with
  | ParameterKwarg => true
  | _ => false
  end.

(** Attribute read on the dataclass instance; the classes declare every
    attribute the code reads, an undeclared one reads as [None] here. *)
Definition kwarg_getattr (k : KwargObject) (attr : string) : PyValue :=
  default PyNone (dict_get (kwarg_fields k) attr).

(** [litestar.typing.FieldDefinition], with the attributes and
    properties the signature model reads. *)
#[warning="-register-all"] Inductive FieldDefinition : Type := mkFieldDefinition {
  name : string;
  annotation : Annotation;
  inner_types : list FieldDefinition;
  is_union : bool;
  is_optional : bool;
  kwarg_definition : option KwargObject;
  has_default : bool;
  default_value : PyValue;
}.

(** [msgspec.NODEFAULT] or a default. *)
Inductive StructDefault : Type :=
| NODEFAULT
| Default (v : PyValue).

(** [ParsedSignature]: the parameters in declaration order and the
    return type. *)
Record ParsedSignature : Type := mkParsedSignature {
  parameters : list (string * FieldDefinition);
  return_type : FieldDefinition;
}.

(** The handler function as far as [create] looks at it:
    [getattr(fn, "__name__", ...)] and [getattr(fn, "__module__", None)]. *)
Record AnyCallable : Type := mkAnyCallable {
  fn___name__ : option string;
  fn___module__ : option string;
}.

(** A signature model class as [defstruct] builds it: the struct fields
    [(name, annotation, default)] and the class variables. *)
Record SignatureModel : Type := mkSignatureModel {
  model_name : string;
  model_module : option string;
  struct_fields : list (string * Annotation * StructDefault);
  _return_annotation : Annotation;
  _dependency_name_set : gset string;
  _fields : list (string * FieldDefinition);
}.

(** [cls.__annotations__]. *)
Definition __annotations__ (cls : SignatureModel) : list (string * Annotation) :=
  map (fun f => (f.1.1, f.1.2)) (struct_fields cls).

(** [ASGIConnection]: [method] is [None] when the connection has no such
    attribute; [query_params] is a multi-dict; [default_deserializer]
    is the one of [connection.route_handler]. *)
Record ASGIConnection : Type := mkASGIConnection {
  method : option string;
  url : string;
  query_params : list (string * string);
  default_deserializer : Decoder;
}.

(** The value of [ScopeType.WEBSOCKET] ([litestar.enums]). *)
Definition ScopeType_WEBSOCKET : string := "websocket".

(** An instance of a signature model: its field values. *)
Definition Struct : Type := list (string * PyValue).

(** [SignatureModel.to_dict]: [asdict(self)]. *)
Definition to_dict (self : Struct) : list (string * PyValue) := self.

(** ** Example handlers, connections and decoders

    Concrete inputs on which the properties below are exercised.  The
    decoders are small stand-ins for msgspec: they check the class of a
    value, hand a value of a class they do not know to [dec_hook], turn a
    [TypeError] or [ValueError] of the hook into a [ValidationError] and
    report a required field that is missing. *)

Definition example_isinstance (v : PyValue) (t : Annotation) : bool :=
  match v, t with
  | PyNone, TNoneType => true
  | PyBool _, TClass c => bool_decide (c = "bool")
  | PyInt _, TClass c => bool_decide (c = "int")
  | PyStr _, TClass c => bool_decide (c = "str")
  | PyObj cls _, TClass c => bool_decide (c = cls)
  | _, _ => false
  end.

Definition example_no_decoder : Annotation -> option Decoder := fun _ => None.

Definition example_builtin (c : string) : bool :=
  bool_decide (c ∈ ["bool"; "int"; "str"]).

Definition example_wrap (r : Result Exception PyValue) : Result Exception PyValue :=
  match r with
  | Raise (OtherException cls text) =>
      if bool_decide (cls ∈ ["TypeError"; "ValueError"])
      then Raise (ValidationError text) else r
  | _ => r
  end.

Fixpoint example_convert_value (v : PyValue) (t : Annotation) (dec_hook : Decoder)
    : Result Exception PyValue :=
  match t with
  | TAny => Ok v
  | TNoneType =>
      if is_none v then Ok v else Raise (ValidationError "Expected `null`")
  | TClass c =>
      if example_isinstance v t then Ok v
      else if example_builtin c then Raise (ValidationError ("Expected `" +:+ c +:+ "`"))
      else example_wrap (dec_hook t v)
  | TOptional a => if is_none v then Ok v else example_convert_value v a dec_hook
  | TAnnotated a _ => example_convert_value v a dec_hook
  | TGeneric _ _ | TUnion _ => Ok v
  end.

Fixpoint example_convert_fields (fields : list (string * Annotation * StructDefault))
    (kwargs : gmap string PyValue) (dec_hook : Decoder) : Result Exception Struct :=
  match fields with
  | [] => Ok []
  | (field_name, t, d) :: rest =>
      let value :=
        match kwargs !! field_name, d with
        | Some v, _ =>
            match example_convert_value v t dec_hook with
            | Raise (ValidationError text) =>
                Raise (ValidationError (text +:+ " - at `$." +:+ field_name +:+ "`"))
            | r => r
            end
        | None, Default v => Ok v
        | None, NODEFAULT =>
            Raise (ValidationError ("Object missing required field `" +:+ field_name +:+ "`"))
        end in
      match value with
      | Raise e => Raise e
      | Ok v =>
          match example_convert_fields rest kwargs dec_hook with
          | Raise e => Raise e
          | Ok vs => Ok ((field_name, v) :: vs)
          end
      end
  end.

Definition example_convert_struct (cls : SignatureModel) (kwargs : gmap string PyValue)
    (dec_hook : Decoder) : Result Exception Struct :=
  example_convert_fields (struct_fields cls) kwargs dec_hook.

(** The attributes of [msgspec.Meta]. *)
Definition example_hasattr_Meta (k : string) : bool :=
  bool_decide (k ∈ ["gt"; "ge"; "lt"; "le"; "multiple_of"; "pattern"; "min_length";
                    "max_length"; "tz"; "title"; "description"; "examples";
                    "extra_json_schema"; "extra"]).

(** A decode that fails as a whole with a given exception. *)
Definition failing_convert_struct (e : Exception)
    : SignatureModel -> gmap string PyValue -> Decoder -> Result Exception Struct :=
  fun _ _ _ => Raise e.

(** A default deserializer that knows no type, as litestar's does when no
    type decoder applies. *)
Definition unsupported_type : Decoder :=
  fun _ _ => Raise (OtherException "TypeError" "Unsupported type").

(** A default deserializer built from a type decoder that gives up with a
    [NotImplementedError]. *)
Definition not_implemented : Decoder :=
  fun _ _ => Raise (OtherException "NotImplementedError" "no decoder for this type").

(** [GET /items?limit=abc]. *)
Definition example_connection : ASGIConnection :=
  mkASGIConnection (Some "GET") "http://testserver.local/items?limit=abc"
    [("limit", "abc")] unsupported_type.

Definition example_connection_not_implemented : ASGIConnection :=
  mkASGIConnection (Some "GET") "http://testserver.local/items" [] not_implemented.

(** [GET /items?database=main]: a query parameter whose name starts with
    [data]. *)
Definition database_connection : ASGIConnection :=
  mkASGIConnection (Some "GET") "http://testserver.local/items?database=main"
    [("database", "main")] unsupported_type.


(** A parameter without inner types. *)
Definition simple_field (field_name : string) (t : Annotation)
    (kd : option KwargObject) : FieldDefinition :=
  mkFieldDefinition field_name t [] false false kd false PyEmpty.

(** [Parameter(cookie="session", min_items=..., gt=None)] and the like: the
    fields of a [ParameterKwarg] that matter below. *)
Definition cookie_parameter : KwargObject :=
  mkKwargObject ParameterKwarg
    [("default", PyEmpty); ("gt", PyNone); ("min_items", PyInt 2); ("max_items", PyNone);
     ("pattern", PyStr "[a-z]+"); ("format", PyStr "slug");
     ("header", PyNone); ("cookie", PyStr "session"); ("query", PyNone)].

Definition header_parameter : KwargObject :=
  mkKwargObject ParameterKwarg
    [("default", PyEmpty); ("header", PyStr "X-Token"); ("cookie", PyNone); ("query", PyNone)].

Definition limit_field : FieldDefinition := simple_field "limit" (TClass "int") None.
Definition session_field : FieldDefinition :=
  simple_field "session" (TClass "str") (Some cookie_parameter).
Definition token_field : FieldDefinition :=
  simple_field "token" (TClass "str") (Some header_parameter).
Definition dep_field : FieldDefinition := simple_field "dep" (TClass "int") None.
Definition none_field : FieldDefinition := simple_field "" TNoneType None.

(** The model of [def handler(limit: int, session: str = Parameter(cookie=...),
    token: str = Parameter(header=...), dep: int)] with the dependency [dep]. *)
Definition example_model : SignatureModel :=
  mkSignatureModel "handler_signature_model" None
    [("limit", TClass "int", NODEFAULT); ("session", TClass "str", NODEFAULT);
     ("token", TClass "str", NODEFAULT); ("dep", TClass "int", NODEFAULT)]
    TNoneType {[ "dep" ]}
    [("limit", limit_field); ("session", session_field);
     ("token", token_field); ("dep", dep_field)].


(** The model of [def handler(stamp: Stamp)] for a class [Stamp] of the
    application. *)
Definition stamp_model : SignatureModel :=
  mkSignatureModel "handler_signature_model" None
    [("stamp", TClass "Stamp", NODEFAULT)] TNoneType ∅
    [("stamp", simple_field "stamp" (TClass "Stamp") None)].

(** [{"limit": 5, "session": "s", "token": "t", "dep": 1}]. *)
Definition complete_kwargs : gmap string PyValue :=
  <["limit" := PyInt 5]> (<["session" := PyStr "s"]>
    (<["token" := PyStr "t"]> (<["dep" := PyInt 1]> ∅))).

Definition dep_message : ErrorMessage :=
  mkErrorMessage (Some "dep") "Expected `int`, got `str`" None.
Definition limit_message : ErrorMessage :=
  mkErrorMessage (Some "limit") "Expected `int`, got `str`" (Some (SourceParam QUERY)).

(** [_normalize_annotation] of a parameter that is validated: its
    annotation. *)
Definition example_normalize_annotation : FieldDefinition -> bool -> Annotation :=
  fun field_definition _ => annotation field_definition.

(** Dependencies that are all known. *)
Definition example_validate_signature_dependencies
    : gset string -> string -> ParsedSignature -> Result Exception (gset string) :=
  fun dependency_name_set _ _ => Ok dependency_name_set.

Definition example_is_class_and_subclass (t : Annotation) (classes : list Annotation) : bool :=
  match t with
  | TClass c =>
      existsb (fun k => match k with TClass c' => bool_decide (c = c') | _ => false end) classes
  | _ => false
  end.

Definition example_call_type : Decoder :=
  fun t v =>
    match t, v with
    | TClass c, PyStr _ => Ok (PyObj c 0)
    | _, _ => Raise (OtherException "TypeError" "bad argument")
    end.


Definition int_type : FieldDefinition := simple_field "" (TClass "int") None.
Definition str_type : FieldDefinition := simple_field "" (TClass "str") None.

(** [value: Optional[Union[int, str]]]. *)
Definition optional_union_field : FieldDefinition :=
  mkFieldDefinition "value" (TUnion [TClass "int"; TClass "str"; TNoneType])
    [int_type; str_type; none_field] true true None false PyEmpty.

(** [value: Union[int, str]]. *)
Definition union_field : FieldDefinition :=
  mkFieldDefinition "value" (TUnion [TClass "int"; TClass "str"])
    [int_type; str_type] true false None false PyEmpty.

(** [{"stamp": "abc"}] and [{"limit": "abc", "session": "s", "token": "t", "dep": 1}]. *)
Definition stamp_kwargs : gmap string PyValue := <["stamp" := PyStr "abc"]> ∅.
Definition invalid_limit_kwargs : gmap string PyValue :=
  <["limit" := PyStr "abc"]> (<["session" := PyStr "s"]>
    (<["token" := PyStr "t"]> (<["dep" := PyInt 1]> ∅))).

(** The signature of [def handler(limit: int, session: str = Parameter(cookie=...))]. *)
Definition example_signature : ParsedSignature :=
  mkParsedSignature [("limit", limit_field); ("session", session_field)] none_field.

Definition example_fn : AnyCallable := mkAnyCallable (Some "handler") (Some "app").

(** [Parameter(min_items=0, max_items=0, title="t")], with every field that
    the dataclass declares, at its default where the call sets none, and
    [Parameter(min_items=2, min_length=3, max_items=9, max_length=5)]. *)
Definition zero_items_parameter : KwargObject :=
  mkKwargObject ParameterKwarg
    [("examples", PyNone); ("external_docs", PyNone); ("content_encoding", PyNone);
     ("default", PyEmpty); ("title", PyStr "t"); ("description", PyNone);
     ("const", PyNone); ("gt", PyNone); ("ge", PyNone); ("lt", PyNone); ("le", PyNone);
     ("multiple_of", PyNone); ("min_items", PyInt 0); ("max_items", PyInt 0);
     ("min_length", PyNone); ("max_length", PyNone); ("pattern", PyNone);
     ("lower_case", PyNone); ("upper_case", PyNone); ("format", PyNone);
     ("enum", PyNone); ("read_only", PyNone); ("annotation", PyEmpty);
     ("header", PyNone); ("cookie", PyNone); ("query", PyNone); ("required", PyNone)].

Definition both_lengths_parameter : KwargObject :=
  mkKwargObject ParameterKwarg
    [("min_items", PyInt 2); ("min_length", PyInt 3);
     ("max_items", PyInt 9); ("max_length", PyInt 5)].


(** Sub-errors of a structured failure: one without location, one for [dep]. *)
Definition example_sub_errors : list SubError :=
  [mkSubError [] "Unsupported value - details";
   mkSubError [LocName "dep"] "Expected `int`, got `str`"].

(** ** The GUID column type ([litestar/contrib/sqlalchemy/types.py]) *)

(** A [uuid.UUID], which is determined by its 128-bit integer. *)
Record UUID : Type := mkUUID { uuid_int : N }.

(** What a GUID column is bound from and read as: [None], [bytes], [str]
    or a [uuid.UUID]. *)
Inductive ColumnValue : Type :=
| ColNone
| ColBytes (b : string)
| ColStr (s : string)
| ColUUID (u : UUID).

(** The column types handed to [dialect.type_descriptor]. *)
Inductive TypeEngine : Type :=
| PG_UUID
| ORA_RAW (length : nat)
| BINARY (length : nat)
| CHAR (length : nat).

(** A dialect, as far as the type looks at it: [dialect.name]. *)
Record Dialect : Type := mkDialect { dialect_name : string }.

(** [GUID(binary=...)]. *)
Record GUID : Type := mkGUID { binary : bool }.

(** [except (TypeError, ValueError)]. *)
Definition is_TypeError_or_ValueError (e : Exception) : bool :=
  match e with
  | OtherException cls _ => bool_decide (cls ∈ ["TypeError"; "ValueError"])
  | _ => false
  end.

(** What the type uses of Python's [uuid] and [base64] modules and of
    [str]: [uuid.UUID(hex=value)], [uuid.UUID(bytes=value)], [value.bytes]
    and [value.hex] of a UUID, [str(value)] and [b64decode(value)]. *)
Class UuidModule : Type := {
  UUID_hex : ColumnValue -> Result Exception UUID;
  UUID_bytes : ColumnValue -> Result Exception UUID;
  uuid_bytes : UUID -> string;
  uuid_hex : UUID -> string;
  value_str : ColumnValue -> string;
  b64decode : ColumnValue -> Result Exception string;
}.

(** [dialect.name in {...}]. *)
Definition dialect_in (dialect : Dialect) (names : list string) : bool :=
  bool_decide (dialect_name dialect ∈ names).

(** [GUID.load_dialect_impl]: the type passed to [dialect.type_descriptor]. *)
Definition load_dialect_impl (self : GUID) (dialect : Dialect) : TypeEngine :=
  if dialect_in dialect ["postgresql"; "duckdb"] then PG_UUID
  else if bool_decide (dialect_name dialect = "oracle") then ORA_RAW 16
  else if binary self then BINARY 16
  else CHAR 32.

(** [GUID.to_uuid]. *)
Definition to_uuid {py : UuidModule} (value : ColumnValue) : Result Exception ColumnValue :=
  match value with
  | ColUUID _ | ColNone => Ok value
  | _ =>
      match UUID_hex value with
      | Ok u => Ok (ColUUID u)
      | Raise e =>
          if is_TypeError_or_ValueError e then
            match UUID_bytes value with
            | Ok u => Ok (ColUUID u)
            | Raise e' => Raise e'
            end
          else Raise e
      end
  end.

(** [GUID.process_bind_param].  [to_uuid] gives a [uuid.UUID] or [None];
    on anything else [value.bytes] would be an [AttributeError]. *)
Definition process_bind_param {py : UuidModule} (self : GUID) (value : ColumnValue)
    (dialect : Dialect) : Result Exception ColumnValue :=
  match value with
  | ColNone => Ok value
  | _ =>
      if dialect_in dialect ["postgresql"; "duckdb"] then Ok (ColStr (value_str value))
      else
        match to_uuid value with
        | Raise e => Raise e
        | Ok ColNone => Ok ColNone
        | Ok (ColUUID u) =>
            if dialect_in dialect ["oracle"; "spanner+spanner"] then Ok (ColBytes (uuid_bytes u))
            else if binary self then Ok (ColBytes (uuid_bytes u))
            else Ok (ColStr (uuid_hex u))
        | Ok _ => Raise (OtherException "AttributeError" "object has no attribute 'bytes'")
        end
  end.

(** [GUID.process_result_value]. *)
Definition process_result_value {py : UuidModule} (self : GUID) (value : ColumnValue)
    (dialect : Dialect) : Result Exception ColumnValue :=
  match value with
  | ColNone => Ok value
  | ColUUID _ => Ok value
  | _ =>
      if bool_decide (dialect_name dialect = "spanner+spanner") then
        match b64decode value with
        | Raise e => Raise e
        | Ok decoded =>
            match UUID_bytes (ColBytes decoded) with
            | Ok u => Ok (ColUUID u)
            | Raise e => Raise e
            end
        end
      else if binary self then
        match UUID_bytes value with
        | Ok u => Ok (ColUUID u)
        | Raise e => Raise e
        end
      else
        match UUID_hex value with
        | Ok u => Ok (ColUUID u)
        | Raise e => Raise e
        end
  end.

(** Stand-ins for [uuid.UUID] on identifiers below 256: the bytes are one
    byte, the hex text is that byte after an [x]. *)
Definition example_uuid_bytes (u : UUID) : string :=
  String (ascii_of_N (uuid_int u)) "".

Definition example_uuid_hex (u : UUID) : string :=
  String "x" (String (ascii_of_N (uuid_int u)) "").

Definition example_UUID_bytes (value : ColumnValue) : Result Exception UUID :=
  match value with
  | ColBytes (String c "") => Ok (mkUUID (N_of_ascii c))
  | ColBytes _ => Raise (OtherException "ValueError" "bytes is not a 16-char string")
  | _ => Raise (OtherException "TypeError" "bytes expected")
  end.

Definition example_UUID_hex (value : ColumnValue) : Result Exception UUID :=
  match value with
  | ColStr (String "x" (String c "")) => Ok (mkUUID (N_of_ascii c))
  | ColStr _ => Raise (OtherException "ValueError" "badly formed hexadecimal UUID string")
  | _ => Raise (OtherException "TypeError" "a bytes-like object is required, not 'str'")
  end.

Definition example_value_str (value : ColumnValue) : string :=
  match value with
  | ColNone => "None"
  | ColBytes b => b
  | ColStr s => s
  | ColUUID u => example_uuid_hex u
  end.

Definition example_b64decode (value : ColumnValue) : Result Exception string :=
  match value with
  | ColBytes b | ColStr b => Ok b
  | _ => Raise (OtherException "TypeError" "argument should be a bytes-like object")
  end.

Definition example_uuid_module : UuidModule :=
  {| UUID_hex := example_UUID_hex;
     UUID_bytes := example_UUID_bytes;
     uuid_bytes := example_uuid_bytes;
     uuid_hex := example_uuid_hex;
     value_str := example_value_str;
     b64decode := example_b64decode |}.

Definition sqlite : Dialect := mkDialect "sqlite".
Definition oracle : Dialect := mkDialect "oracle".
Definition example_uuid : UUID := mkUUID 71.

(** ** The logging middleware ([litestar/middleware/logging.py]) *)

(** The values that are logged: [None], [bytes], a [dict], [list],
    [tuple] or [set], or any other object. *)
Inductive LogValue : Type :=
| LogNone
| LogBytes (b : string)
| LogContainer (c : PyValue)
| LogObject (v : PyValue).

(** A serializer function, known by an identifier. *)
Record Serializer : Type := mkSerializer { serializer_id : nat }.

(** [LoggingMiddlewareConfig], with the fields that the logging of
    responses reads. *)
Record LoggingMiddlewareConfig : Type := mkLoggingMiddlewareConfig {
  include_compressed_body : bool;
  response_log_message : LogValue;
  response_log_fields : list string;
}.

(** [LoggingMiddleware]. *)
Record LoggingMiddleware : Type := mkLoggingMiddleware {
  config : LoggingMiddlewareConfig;
  is_struct_logger : bool;
}.

(** A call of [self.logger.info]: with the message and the values as
    keyword arguments, or with one text. *)
Inductive LoggerCall : Type :=
| InfoValues (event : LogValue) (values : list (string * LogValue))
| InfoText (text : string).

(** [litestar/constants.py]. *)
Definition HTTP_RESPONSE_BODY : string := "http.response.body".
Definition HTTP_RESPONSE_START : string := "http.response.start".
Definition SCOPE_STATE_RESPONSE_COMPRESSED : string := "response_compressed".

(** What the middleware calls: on the ASGI scope,
    [get_serializer_from_scope(scope)],
    [get_litestar_scope_state(scope, key, pop=True)], which gives the
    value and the scope without it, and
    [get_litestar_scope_state(scope, key, default=False)] in a condition;
    [litestar.serialization.default_serializer];
    [self.response_extractor(messages=(start, body))];
    [encode_json(value, serializer)], which gives bytes;
    [value.decode("utf-8")]; and the text of a value in an f-string. *)
Class LoggingEnvironment (Scope : Type) : Type := {
  get_serializer_from_scope : Scope -> option Serializer;
  pop_litestar_scope_state : Scope -> string -> PyValue * Scope;
  get_litestar_scope_flag : Scope -> string -> bool;
  serialization_default_serializer : Serializer;
  response_extractor : LoggingMiddleware -> PyValue -> PyValue -> list (string * LogValue);
  encode_json : PyValue -> Serializer -> Result Exception string;
  decode_utf8 : string -> Result Exception string;
  format_value : LogValue -> string;
}.

(** [LoggingMiddleware._serialize_value]. *)
Definition _serialize_value {Scope : Type} {env : LoggingEnvironment Scope} (self : LoggingMiddleware) (serializer : Serializer)
    (value : LogValue) : Result Exception LogValue :=
  let encoded :=
    match value with
    | LogContainer c =>
        if negb (is_struct_logger self) then
          match encode_json c serializer with
          | Ok b => Ok (LogBytes b)
          | Raise e => Raise e
          end
        else Ok value
    | _ => Ok value
    end in
  match encoded with
  | Raise e => Raise e
  | Ok (LogBytes b) =>
      match decode_utf8 b with
      | Ok s => Ok (LogObject (PyStr s))
      | Raise e => Raise e
      end
  | Ok v => Ok v
  end.

(** [extracted_data.get(key)]. *)
Definition extracted_get (extracted_data : list (string * LogValue)) (k : string) : LogValue :=
  default LogNone (dict_get extracted_data k).

(** The loop of [LoggingMiddleware.extract_response_data] over
    [self.config.response_log_fields]. *)
Fixpoint extract_response_fields {Scope : Type} {env : LoggingEnvironment Scope} (self : LoggingMiddleware) (serializer : Serializer)
    (extracted_data : list (string * LogValue)) (response_body_compressed : bool)
    (fields : list string) (data : list (string * LogValue))
    : Result Exception (list (string * LogValue)) :=
  match fields with
  | [] => Ok data
  | k :: rest =>
      let value := extracted_get extracted_data k in
      if bool_decide (k = "body") && response_body_compressed then
        if include_compressed_body (config self) then
          extract_response_fields self serializer extracted_data response_body_compressed
            rest (dict_set data k value)
        else
          extract_response_fields self serializer extracted_data response_body_compressed
            rest data
      else
        match _serialize_value self serializer value with
        | Raise e => Raise e
        | Ok v =>
            extract_response_fields self serializer extracted_data response_body_compressed
              rest (dict_set data k v)
        end
  end.

(** What [extract_response_data] reads from the scope before its loop:
    the serializer, the data of the extractor on the two popped messages,
    the compression flag, and the scope after the pops. *)
Definition response_inputs {Scope : Type} {env : LoggingEnvironment Scope} (self : LoggingMiddleware) (scope : Scope)
    : Serializer * list (string * LogValue) * bool * Scope :=
  let serializer :=
    default serialization_default_serializer (get_serializer_from_scope scope) in
  let '(start, scope1) := pop_litestar_scope_state scope HTTP_RESPONSE_START in
  let '(body, scope2) := pop_litestar_scope_state scope1 HTTP_RESPONSE_BODY in
  let extracted_data := response_extractor self start body in
  let response_body_compressed :=
    get_litestar_scope_flag scope2 SCOPE_STATE_RESPONSE_COMPRESSED in
  (serializer, extracted_data, response_body_compressed, scope2).

(** [LoggingMiddleware.extract_response_data]: the data, or the exception
    of a serialization, and the scope it leaves. *)
Definition extract_response_data {Scope : Type} {env : LoggingEnvironment Scope} (self : LoggingMiddleware) (scope : Scope)
    : Result Exception (list (string * LogValue)) * Scope :=
  let '(serializer, extracted_data, response_body_compressed, scope') :=
    response_inputs self scope in
  (extract_response_fields self serializer extracted_data response_body_compressed
     (response_log_fields (config self))
     [("message", response_log_message (config self))],
   scope').

(** [LoggingMiddleware.log_message]: the call of the logger. *)
Definition log_message {Scope : Type} {env : LoggingEnvironment Scope} (self : LoggingMiddleware) (values : list (string * LogValue))
    : Result Exception LoggerCall :=
  match dict_get values "message" with
  | None => Raise (KeyError "message")
  | Some message_ =>
      let values' := dict_del values "message" in
      if is_struct_logger self then Ok (InfoValues message_ values')
      else
        let value_strings :=
          map (fun kv => fst kv +:+ "=" +:+ format_value (snd kv)) values' in
        Ok (InfoText (format_value message_ +:+ ": " +:+ str_join ", " value_strings))
  end.

(** [LoggingMiddleware.log_response]. *)
Definition log_response {Scope : Type} {env : LoggingEnvironment Scope} (self : LoggingMiddleware) (scope : Scope)
    : Result Exception LoggerCall * Scope :=
  let '(extracted, scope') := extract_response_data self scope in
  (match extracted with
   | Raise e => Raise e
   | Ok values => log_message self values
   end, scope').

(** A stand-in for the collaborators of the logging middleware: the scope
    is its litestar state, the extractor reads the status and the body of
    the two messages, JSON encoding gives an empty object and every byte
    sequence decodes to itself. *)
Definition example_response_extractor (self : LoggingMiddleware) (start body : PyValue)
    : list (string * LogValue) :=
  [("status_code",
    match start with
    | PyDict d => LogObject (default PyNone (dict_get d "status"))
    | _ => LogNone
    end);
   ("body",
    match body with
    | PyDict d => match dict_get d "body" with Some (PyStr b) => LogBytes b | _ => LogNone end
    | _ => LogNone
    end);
   ("headers", LogContainer (PyDict []))].

Definition example_format_value (v : LogValue) : string :=
  match v with
  | LogNone => "None"
  | LogBytes b => b
  | LogObject (PyStr s) => s
  | LogObject (PyInt z) => pretty z
  | _ => "?"
  end.

Definition example_logging_environment : LoggingEnvironment (list (string * PyValue)) :=
  {| get_serializer_from_scope := fun _ => None;
     pop_litestar_scope_state :=
       fun scope k => (default PyNone (dict_get scope k), dict_del scope k);
     get_litestar_scope_flag := fun scope k => truthy (default PyNone (dict_get scope k));
     serialization_default_serializer := mkSerializer 0;
     response_extractor := example_response_extractor;
     encode_json := fun _ _ => Ok "{}";
     decode_utf8 := fun b => Ok b;
     format_value := example_format_value |}.

Definition example_middleware (include_compressed : bool) : LoggingMiddleware :=
  mkLoggingMiddleware
    (mkLoggingMiddlewareConfig include_compressed (LogObject (PyStr "HTTP Response"))
       ["status_code"; "headers"; "body"])
    false.

Definition plain_scope : list (string * PyValue) :=
  [("http.response.start", PyDict [("status", PyInt 200)]);
   ("http.response.body", PyDict [("body", PyStr "ok")])].

Definition compressed_scope : list (string * PyValue) :=
  plain_scope ++ [("response_compressed", PyBool true)].

(** ** The signature model *)

Section Model.

(** *** What the module imports *)

(** [isinstance(value, target_type)]. *)
Variable isinstance : PyValue -> Annotation -> bool.

(** The [_decoder] attribute of a type, [None] when
    [hasattr(target_type, "_decoder")] is false. *)
Variable getattr__decoder : Annotation -> option Decoder.

(** [msgspec.convert(kwargs, cls, strict=False, dec_hook=..., str_keys=True)]. *)
Variable convert_struct :
  SignatureModel -> gmap string PyValue -> Decoder -> Result Exception Struct.

(** [msgspec.convert(raw_value, type=annotation, strict=False, dec_hook=..., str_keys=True)]. *)
Variable convert_value :
  PyValue -> Annotation -> Decoder -> Result Exception PyValue.

(** [litestar._signature.utils._normalize_annotation]. *)
Variable _normalize_annotation : FieldDefinition -> bool -> Annotation.

(** [litestar._signature.utils._validate_signature_dependencies]. *)
Variable _validate_signature_dependencies :
  gset string -> string -> ParsedSignature -> Result Exception (gset string).

(** [hasattr(Meta, k)]. *)
Variable hasattr_Meta : string -> bool.

(** [litestar.utils.is_class_and_subclass]. *)
Variable is_class_and_subclass : Annotation -> list Annotation -> bool.

(** Calling a type on a value, [t(v)]. *)
Variable call_type : Decoder.

(** Modelled from the spec: [litestar._signature.utils._get_decoder_for_type]
    is not part of the sources at hand; the type-decoder registry is an
    ordered list of (predicate, decoder) pairs and the first matching
    predicate wins. *)
Definition _get_decoder_for_type (target_type : Annotation)
    (type_decoders : list TypeDecoder) : option Decoder :=
  snd <$> List.find (fun pd => fst pd target_type) type_decoders.

(** Modelled from the spec: [litestar.utils.dataclass.simple_asdict] is not
    part of the sources at hand; called with [exclude_empty=True] it gives
    the fields of the dataclass instance as a dictionary and leaves out
    those that hold the [Empty] sentinel. *)
Definition simple_asdict (obj : KwargObject) : list (string * PyValue) :=
  List.filter (fun kv => match snd kv with PyEmpty => false | _ => true end)
    (kwarg_fields obj).

Definition MSGSPEC_CONSTRAINT_FIELDS : list string :=
  ["gt"; "ge"; "lt"; "le"; "multiple_of"; "pattern"; "min_length"; "max_length"].

Definition DEFAULT_TYPE_DECODERS : list TypeDecoder :=
  [ (fun x => is_class_and_subclass x
                [TClass "Path"; TClass "PurePath"; TClass "ImmutableState"; TClass "UUID"],
     fun t v => call_type t v) ].

(** *** [_deserializer] *)

Definition _deserializer (target_type : Annotation) (value : PyValue)
    (default_deserializer : Decoder) : Result Exception PyValue :=
  if isinstance value target_type then Ok value
  else
    match getattr__decoder target_type with
    | Some _decoder => _decoder target_type value
    | None => default_deserializer target_type value
    end.

(** *** [SignatureModel._create_exception] *)

(** The condition of the comprehension that builds [client_errors]. *)
Definition is_client_error (cls : SignatureModel) (err_message : ErrorMessage) : bool :=
  match key err_message with
  | Some k => negb (bool_decide (k ∈ _dependency_name_set cls))
  | None => true
  end.

(** [connection.method if hasattr(connection, "method") else ScopeType.WEBSOCKET]. *)
Definition connection_method (connection : ASGIConnection) : string :=
  match method connection with
  | Some m => m
  | None => ScopeType_WEBSOCKET
  end.

Definition _create_exception (cls : SignatureModel) (connection : ASGIConnection)
    (messages : list ErrorMessage) : Exception :=
  let method_ := connection_method connection in
  let client_errors := List.filter (is_client_error cls) messages in
  match client_errors with
  | _ :: _ =>
      ValidationException
        ("Validation failed for " +:+ method_ +:+ " " +:+ url connection)
        client_errors
  | [] => InternalServerException
  end.

(** *** [SignatureModel._build_error_message] *)

(** [key in connection.query_params]. *)
Definition in_query_params (connection : ASGIConnection) (k : string) : bool :=
  bool_decide (k ∈ (query_params connection).*1).

Definition _build_error_message (cls : SignatureModel) (keys : list string)
    (exc_msg : string) (connection : ASGIConnection) : ErrorMessage :=
  let text := split_head " - " exc_msg in
  match keys with
  | [] => mkErrorMessage None text None
  | k0 :: _ =>
      let key_ := str_join "." keys in
      if startswith k0 "data" then
        mkErrorMessage (Some (str_replace "data." "" key_)) text (Some SourceBody)
      else if in_query_params connection key_ then
        mkErrorMessage (Some key_) text (Some (SourceParam QUERY))
      else
        match dict_get (_fields cls) key_ with
        | Some fd =>
            match kwarg_definition fd with
            | Some kd =>
                if isinstance_ParameterKwarg kd then
                  if truthy (kwarg_getattr kd "cookie") then
                    mkErrorMessage (Some key_) text (Some (SourceParam COOKIE))
                  else if truthy (kwarg_getattr kd "header") then
                    mkErrorMessage (Some key_) text (Some (SourceParam HEADER))
                  else
                    mkErrorMessage (Some key_) text (Some (SourceParam QUERY))
                else mkErrorMessage (Some key_) text None
            | None => mkErrorMessage (Some key_) text None
            end
        | None => mkErrorMessage (Some key_) text None
        end
  end.

(** *** [SignatureModel._collect_errors] *)

(** The body of the loop for one field: the [try] block raises a
    [KeyError] when [kwargs] or [__annotations__] lacks the field, or
    what [convert] raises. *)
Definition collect_field (cls : SignatureModel) (deserializer : Decoder)
    (kwargs : gmap string PyValue) (field_name : string) : list (string * Exception) :=
  match kwargs !! field_name with
  | None => [(field_name, KeyError field_name)]
  | Some raw_value =>
      match dict_get (__annotations__ cls) field_name with
      | None => [(field_name, KeyError field_name)]
      | Some annotation_ =>
          match convert_value raw_value annotation_ deserializer with
          | Ok _ => []
          | Raise e => [(field_name, e)]
          end
      end
  end.

Definition _collect_errors (cls : SignatureModel) (deserializer : Decoder)
    (kwargs : gmap string PyValue) : list (string * Exception) :=
  flat_map (collect_field cls deserializer kwargs) (dict_keys (_fields cls)).

(** *** [SignatureModel.parse_values_from_connection_kwargs] *)

(** The messages of the first handler, one per entry of [e.errors]. *)
Definition structured_messages (cls : SignatureModel) (connection : ASGIConnection)
    (errors : list SubError) : list ErrorMessage :=
  map (fun exc =>
         let keys := map loc_str (loc exc) in
         _build_error_message cls keys (msg exc) connection)
      errors.

(** The keys of the second handler for one replayed failure. *)
Definition replay_keys (field_name : string) (exc : Exception) : list string :=
  match ERR_RE_search (exc_str exc) with
  | Some group1 => [field_name; group1]
  | None => [field_name]
  end.

(** The messages of the second handler, one per replayed failure; [e] is
    the failure of the whole decode. *)
Definition replay_messages (cls : SignatureModel) (connection : ASGIConnection)
    (e : Exception) (failures : list (string * Exception)) : list ErrorMessage :=
  map (fun fe =>
         _build_error_message cls (replay_keys (fst fe) (snd fe)) (exc_str e) connection)
      failures.

(** [partial(_deserializer, default_deserializer=connection.route_handler.default_deserializer)]. *)
Definition connection_deserializer (connection : ASGIConnection) : Decoder :=
  fun target_type value =>
    _deserializer target_type value (default_deserializer connection).

Definition parse_values_from_connection_kwargs (cls : SignatureModel)
    (connection : ASGIConnection) (kwargs : gmap string PyValue)
    : Result Exception (list (string * PyValue)) :=
  let deserializer := connection_deserializer connection in
  match convert_struct cls kwargs deserializer with
  | Ok instance => Ok (to_dict instance)
  | Raise (ExtendedMsgSpecValidationError errors text) =>
      Raise (_create_exception cls connection
               (structured_messages cls connection errors))
  | Raise (ValidationError text) =>
      let e := ValidationError text in
      Raise (_create_exception cls connection
               (replay_messages cls connection e
                  (_collect_errors cls deserializer kwargs)))
  | Raise e => Raise e
  end.

(** *** What is taken of [msgspec.convert] on a mapping

    [msgspec.convert] is not part of the sources.  Two properties below
    need more of it than that it returns or raises; each states what it
    needs as a condition on the call at hand. *)



(** *** [SignatureModel._create_annotation] *)

(** [setattr(annotation, "_decoder", decoder)] changes the type object;
    the function returns the annotation together with the attribute
    writes it performed, in order. *)
Fixpoint _create_annotation (field_definition : FieldDefinition) (has_data_dto : bool)
    (type_decoders : list TypeDecoder) (meta_data : option Meta) {struct field_definition}
    : Result Exception (Annotation * list (Annotation * Decoder)) :=
  let annotation_ := _normalize_annotation field_definition has_data_dto in
  if is_any annotation_ then Ok (annotation_, [])
  else if is_union field_definition then
    let types_ :=
      (fix each (inner : list FieldDefinition) : Result Exception (list Annotation * list (Annotation * Decoder)) :=
         match inner with
         | [] => Ok ([], [])
         | inner_type :: rest =>
             if is_none_type (annotation inner_type) then each rest
             else
               match _create_annotation inner_type has_data_dto type_decoders meta_data with
               | Raise e => Raise e
               | Ok (a, writes) =>
                   match each rest with
                   | Raise e => Raise e
                   | Ok (others, writes') => Ok (a :: others, writes ++ writes')
                   end
               end
         end) (inner_types field_definition) in
    match types_ with
    | Raise e => Raise e
    | Ok (types, writes) =>
        if is_optional field_definition then
          match types with
          | first :: _ => Ok (TOptional first, writes)
          | [] => Raise (OtherException "IndexError" "list index out of range")
          end
        else
          match types with
          | _ :: _ => Ok (TUnion types, writes)
          | [] => Raise (OtherException "TypeError" "Cannot take a Union of no types.")
          end
    end
  else
    let writes :=
      match _get_decoder_for_type annotation_ type_decoders with
      | Some decoder => [(annotation_, decoder)]
      | None => []
      end in
    match meta_data with
    | Some m => Ok (TAnnotated annotation_ m, writes)
    | None => Ok (annotation_, writes)
    end.

(** *** [SignatureModel.create] *)

(** [meta_kwargs["extra"][k] = v]. *)
Definition set_extra (meta_kwargs_ : list (string * PyValue)) (k : string) (v : PyValue)
    : Result Exception (list (string * PyValue)) :=
  match dict_get meta_kwargs_ "extra" with
  | Some (PyDict extra_) => Ok (dict_set meta_kwargs_ "extra" (PyDict (dict_set extra_ k v)))
  | Some _ => Raise (OtherException "TypeError" "object does not support item assignment")
  | None => Raise (KeyError "extra")
  end.

(** The loop over [kwarg_definition.items()]. *)
Fixpoint translate_items (items : list (string * PyValue))
    (meta_kwargs_ : list (string * PyValue)) : Result Exception (list (string * PyValue)) :=
  match items with
  | [] => Ok meta_kwargs_
  | (k, v) :: rest =>
      if hasattr_Meta k && negb (is_none v) then
        translate_items rest (dict_set meta_kwargs_ k v)
      else
        match set_extra meta_kwargs_ k v with
        | Ok meta_kwargs' => translate_items rest meta_kwargs'
        | Raise e => Raise e
        end
  end.

(** [kwarg_definition.pop(k, None)]: the value and the dictionary without
    the key. *)
Definition dict_pop (d : list (string * PyValue)) (k : string)
    : PyValue * list (string * PyValue) :=
  (default PyNone (dict_get d k), dict_del d k).

(** The keyword arguments of [Meta] that [create] assembles for a
    parameter whose [kwarg_definition] is a [KwargDefinition]. *)
Definition create_meta_kwargs (kwarg_definition_ : KwargObject)
    : Result Exception (list (string * PyValue)) :=
  let meta_kwargs0 := [("extra", PyDict [])] in
  let kd0 := simple_asdict kwarg_definition_ in
  let '(min_items, kd1) := dict_pop kd0 "min_items" in
  let meta_kwargs1 :=
    if truthy min_items then dict_set meta_kwargs0 "min_length" min_items else meta_kwargs0 in
  let '(max_items, kd2) := dict_pop kd1 "max_items" in
  let meta_kwargs2 :=
    if truthy max_items then dict_set meta_kwargs1 "max_length" max_items else meta_kwargs1 in
  translate_items kd2 meta_kwargs2.

(** [meta_data] of one parameter. *)
Definition create_meta_data (field_definition : FieldDefinition)
    : Result Exception (option Meta) :=
  match kwarg_definition field_definition with
  | Some kd =>
      if isinstance_KwargDefinition kd then
        match create_meta_kwargs kd with
        | Ok kw => Ok (Some (mkMeta kw))
        | Raise e => Raise e
        end
      else Ok None
  | None => Ok None
  end.

(** One round of the loop over [parsed_signature.parameters.values()]:
    the struct field and the attribute writes. *)
Definition create_field (field_definition : FieldDefinition) (has_data_dto : bool)
    (type_decoders : list TypeDecoder)
    : Result Exception ((string * Annotation * StructDefault) * list (Annotation * Decoder)) :=
  match create_meta_data field_definition with
  | Raise e => Raise e
  | Ok meta_data =>
      match _create_annotation field_definition has_data_dto
              (type_decoders ++ DEFAULT_TYPE_DECODERS) meta_data with
      | Raise e => Raise e
      | Ok (annotation_, writes) =>
          let default_ :=
            if has_default field_definition
            then Default (default_value field_definition) else NODEFAULT in
          Ok ((name field_definition, annotation_, default_), writes)
      end
  end.

Fixpoint create_fields (params : list FieldDefinition) (has_data_dto : bool)
    (type_decoders : list TypeDecoder)
    : Result Exception (list (string * Annotation * StructDefault) * list (Annotation * Decoder)) :=
  match params with
  | [] => Ok ([], [])
  | field_definition :: rest =>
      match create_field field_definition has_data_dto type_decoders with
      | Raise e => Raise e
      | Ok (f, writes) =>
          match create_fields rest has_data_dto type_decoders with
          | Raise e => Raise e
          | Ok (fs, writes') => Ok (f :: fs, writes ++ writes')
          end
      end
  end.

(** The name [create] gives to the handler. *)
Definition create_fn_name (fn : AnyCallable) : string :=
  let fn_name := default "anonymous" (fn___name__ fn) in
  if negb (bool_decide (fn_name = "")) && negb (bool_decide (fn_name = "<lambda>"))
  then fn_name else "anonymous".

Definition create (dependency_name_set : gset string) (fn : AnyCallable)
    (has_data_dto : bool) (parsed_signature : ParsedSignature)
    (type_decoders : list TypeDecoder)
    : Result Exception (SignatureModel * list (Annotation * Decoder)) :=
  let fn_name := create_fn_name fn in
  match _validate_signature_dependencies dependency_name_set fn_name parsed_signature with
  | Raise e => Raise e
  | Ok dependency_names =>
      match create_fields (parameters parsed_signature).*2 has_data_dto type_decoders with
      | Raise e => Raise e
      | Ok (struct_fields_, writes) =>
          Ok (mkSignatureModel
                (fn_name +:+ "_signature_model")
                (fn___module__ fn)
                struct_fields_
                (annotation (return_type parsed_signature))
                dependency_names
                (parameters parsed_signature),
              writes)
      end
  end.

(** ** Properties *)

(** *** Strings *)

Lemma append_cons (c : ascii) (a b : string) :
  String c a +:+ b = String c (a +:+ b).
Proof. reflexivity. Qed.

Lemma append_nil_l (b : string) : "" +:+ b = b.
Proof. reflexivity. Qed.







(** *** The error projector *)



Lemma replace_from_absent (old new s : string) :
  str_contains old s = false -> replace_from old new 0 s = s.
Proof.
  induction s as [|c s IH]; intros H; [reflexivity|].
  cbn [str_contains] in H. apply orb_false_iff in H as [H1 H2].
  cbn [replace_from]. rewrite H1. f_equal. auto.
Qed.

Lemma str_join_cons (sep k0 k1 : string) (rest : list string) :
  str_join sep (k0 :: k1 :: rest) = k0 +:+ sep +:+ str_join sep (k1 :: rest).
Proof. reflexivity. Qed.

(** Stripping the body prefix: every ["data."] goes, the leading one
    first. *)
Lemma str_replace_data_prefix (r : string) :
  str_replace "data." "" ("data." +:+ r) = str_replace "data." "" r.
Proof. destruct r; reflexivity. Qed.

(** C2 (amended).  With a non-empty key path the source tag is decided in
    this order: body when the first key starts with "data" (the key is then
    the joined path with every "data." taken out; when the first key is
    "data" itself and the rest of the path holds no further "data.", that
    is the path without its leading "data." segment); else query when the
    joined key is a query parameter name; else cookie, header or query (in
    this order of preference) when the joined key names a declared field
    whose definition is a [ParameterKwarg]; and no source at all in every
    remaining case. *)
Theorem build_error_message_source cls k0 rest exc_msg connection :
  let joined := str_join "." (k0 :: rest) in
  let m := _build_error_message cls (k0 :: rest) exc_msg connection in
  (startswith k0 "data" = true ->
     key m = Some (str_replace "data." "" joined) /\ source m = Some SourceBody /\
     (k0 = "data" -> rest <> [] -> str_contains "data." (str_join "." rest) = false ->
      key m = Some (str_join "." rest)))
  /\ (startswith k0 "data" = false ->
       key m = Some joined /\
       (in_query_params connection joined = true -> source m = Some (SourceParam QUERY)) /\
       (in_query_params connection joined = false ->
          (forall fd kd,
              dict_get (_fields cls) joined = Some fd ->
              kwarg_definition fd = Some kd ->
              isinstance_ParameterKwarg kd = true ->
              source m =
                Some (SourceParam
                        (if truthy (kwarg_getattr kd "cookie") then COOKIE
                         else if truthy (kwarg_getattr kd "header") then HEADER
                         else QUERY))) /\
          ((dict_get (_fields cls) joined = None \/
            exists fd, dict_get (_fields cls) joined = Some fd /\
                       (kwarg_definition fd = None \/
                        exists kd, kwarg_definition fd = Some kd /\
                                   isinstance_ParameterKwarg kd = false)) ->
           source m = None))).
Proof.
  cbv zeta. split.
  - intros Hk0. unfold _build_error_message. rewrite Hk0. cbn [key source].
    split; [reflexivity|]. split; [reflexivity|].
    intros -> Hrest Hno. destruct rest as [|k1 rest]; [congruence|].
    rewrite str_join_cons.
    change ("data" +:+ "." +:+ str_join "." (k1 :: rest))
      with ("data." +:+ str_join "." (k1 :: rest)).
    rewrite str_replace_data_prefix.
    unfold str_replace. now rewrite replace_from_absent.
  - intros Hk0. unfold _build_error_message. rewrite Hk0.
    destruct (in_query_params connection _) eqn:Hq.
    + cbn. split; [reflexivity|]. split; [reflexivity|]. intros; discriminate.
    + split; [|split; [discriminate|intros _; split]].
      * repeat (match goal with
                | |- context [match ?x with _ => _ end] => destruct x
                end; try reflexivity).
      * intros fd kd -> -> ->.
        repeat (match goal with
                | |- context [if ?x then _ else _] => destruct x
                end; try reflexivity).
      * intros [->|(fd & -> & [->|(kd & -> & ->)])]; reflexivity.
Qed.

(** C3 (amended).  A message is client-caused exactly when it has no key
    or its key is outside the dependency name set.  When some message is
    client-caused the result is a [ValidationException] whose detail names
    the method and the URL and whose extra payload holds the client-caused
    messages, in their order, and no other; when every message has a key
    of the dependency name set the result is an
    [InternalServerException], which carries nothing. *)
Theorem create_exception_partition cls connection messages :
  (forall m, is_client_error cls m = true <->
             (key m = None \/
              exists k, key m = Some k /\ k ∉ _dependency_name_set cls))
  /\ ((exists m, m ∈ messages /\ is_client_error cls m = true) ->
       _create_exception cls connection messages =
         ValidationException
           ("Validation failed for " +:+ connection_method connection +:+ " "
              +:+ url connection)
           (List.filter (is_client_error cls) messages))
  /\ ((forall m, m ∈ messages ->
                  exists k, key m = Some k /\ k ∈ _dependency_name_set cls) ->
       _create_exception cls connection messages = InternalServerException).
Proof.
  split; [|split].
  - intros m. unfold is_client_error. destruct (key m) as [k|].
    + rewrite negb_true_iff, bool_decide_eq_false. split.
      * intros H. right. eauto.
      * intros [?|(k' & [= <-] & H)]; [discriminate|exact H].
    + split; auto.
  - intros (m & Hin & Hm). unfold _create_exception.
    destruct (List.filter (is_client_error cls) messages) as [|c cs] eqn:E; [|reflexivity].
    exfalso. assert (Hf : In m (List.filter (is_client_error cls) messages)).
    { apply filter_In. split; [apply list_elem_of_In, Hin|exact Hm]. }
    rewrite E in Hf. destruct Hf.
  - intros Hall. unfold _create_exception.
    destruct (List.filter (is_client_error cls) messages) as [|c cs] eqn:E; [reflexivity|].
    exfalso. assert (Hf : In c (List.filter (is_client_error cls) messages)).
    { rewrite E. left. reflexivity. }
    apply filter_In in Hf as [Hin Hc]. apply list_elem_of_In in Hin.
    destruct (Hall _ Hin) as (k & Hk & Hdep).
    unfold is_client_error in Hc. rewrite Hk in Hc.
    apply negb_true_iff, bool_decide_eq_false in Hc. contradiction.
Qed.


(** *** The pattern [ERR_RE] *)

Lemma match_group_tail_spec (s g : string) :
  match_group_tail s = Some g ->
  g <> "" /\ (s = g +:+ "`" \/ s = g +:+ "`" +:+ String newline "").
Proof.
  revert g. induction s as [|c s IH]; intros g H; [discriminate|].
  cbn [match_group_tail] in H. destruct (is_newline c); [discriminate|].
  destruct (match_group_tail s) as [g'|].
  - injection H as <-. destruct (IH g' eq_refl) as [_ [->| ->]]; split; auto; discriminate.
  - destruct (bool_decide (s = "`")) eqn:E1.
    + apply bool_decide_eq_true in E1 as ->. injection H as <-.
      split; [discriminate|left; reflexivity].
    + destruct (bool_decide (s = String "`" (String newline ""))) eqn:E2; [|discriminate].
      apply bool_decide_eq_true in E2 as ->. injection H as <-.
      split; [discriminate|right; reflexivity].
Qed.

Lemma ERR_RE_match_here_spec (s g : string) :
  ERR_RE_match_here s = Some g ->
  g <> "" /\ (s = "`$." +:+ g +:+ "`" \/ s = "`$." +:+ g +:+ "`" +:+ String newline "").
Proof.
  unfold ERR_RE_match_here. intros H.
  destruct s as [|c0 [|c1 [|c2 rest]]]; try discriminate;
    try (destruct c0 as [[] [] [] [] [] [] [] []]; discriminate).
  - destruct c0 as [[] [] [] [] [] [] [] []]; try discriminate;
      destruct c1 as [[] [] [] [] [] [] [] []]; discriminate.
  - destruct c0 as [[] [] [] [] [] [] [] []]; try discriminate;
      destruct c1 as [[] [] [] [] [] [] [] []]; try discriminate;
      destruct c2 as [[] [] [] [] [] [] [] []]; try discriminate.
    destruct (match_group_tail_spec _ _ H) as [Hg [->| ->]]; split; auto.
Qed.

(** A match of [ERR_RE] ends the text (up to a final newline): the text is
    some prefix, then a backquote, [$.], the group, and a backquote. *)
Lemma ERR_RE_search_spec (s g : string) :
  ERR_RE_search s = Some g ->
  g <> "" /\
  exists before tail,
    s = before +:+ "`$." +:+ g +:+ "`" +:+ tail /\ (tail = "" \/ tail = String newline "").
Proof.
  induction s as [|c s IH]; intros H.
  - discriminate.
  - cbn [ERR_RE_search] in H. destruct (ERR_RE_match_here (String c s)) as [g'|] eqn:E.
    + injection H as <-. destruct (ERR_RE_match_here_spec _ _ E) as [Hg [Hs|Hs]]; (split; [exact Hg|]).
      * exists "", "". rewrite Hs. auto.
      * exists "", (String newline ""). rewrite Hs. auto.
    + destruct (IH H) as (Hg & before & tail & -> & Ht). split; [exact Hg|].
      exists (String c before), tail. auto.
Qed.

(** *** Decoding *)


(** The outcome of the call by the outcome of the decode: the mapping of
    the decoded instance; for a decode failure of msgspec, structured or
    not, what [_create_exception] gives; any other exception as it is. *)
Lemma parse_values_outcome cls connection kwargs :
  match convert_struct cls kwargs (connection_deserializer connection) with
  | Ok instance =>
      parse_values_from_connection_kwargs cls connection kwargs = Ok (to_dict instance)
  | Raise e =>
      if is_decode_failure e then
        exists e', parse_values_from_connection_kwargs cls connection kwargs = Raise e'
                   /\ is_request_exception e' = true /\ is_decode_failure e' = false
      else parse_values_from_connection_kwargs cls connection kwargs = Raise e
  end.
Proof.
  assert (Hreq : forall messages,
             is_request_exception (_create_exception cls connection messages) = true
             /\ is_decode_failure (_create_exception cls connection messages) = false).
  { intros messages. unfold _create_exception.
    destruct (List.filter _ messages); split; reflexivity. }
  unfold parse_values_from_connection_kwargs.
  destruct (convert_struct cls kwargs (connection_deserializer connection)) as [instance|e];
    [reflexivity|].
  destruct e; cbn [is_decode_failure]; try reflexivity;
    (eexists; split; [reflexivity|apply Hreq]).
Qed.


(** *** Omitted fields *)

Lemma str_last_app (a b : string) :
  b <> "" -> str_last (a +:+ b) = str_last b.
Proof.
  intros Hb. induction a as [|c a IH]; [reflexivity|].
  rewrite append_cons. cbn [str_last]. rewrite IH.
  destruct (a +:+ b) eqn:E; [|reflexivity].
  destruct a; [|discriminate]. rewrite append_nil_l in E. congruence.
Qed.

Lemma append_nonempty_l (a b : string) : a <> "" -> a +:+ b <> "".
Proof. destruct a; [congruence|discriminate]. Qed.

Lemma append_nonempty_r (a b : string) : b <> "" -> a +:+ b <> "".
Proof. destruct a; [rewrite append_nil_l; auto|discriminate]. Qed.

Lemma ERR_RE_search_last (s g : string) :
  ERR_RE_search s = Some g ->
  str_last s = Some "`"%char \/ str_last s = Some newline.
Proof.
  intros H. destruct (ERR_RE_search_spec _ _ H) as (_ & before & tail & -> & Ht).
  rewrite (str_last_app before)
    by (apply append_nonempty_l; discriminate).
  rewrite (str_last_app "`$.")
    by (apply append_nonempty_r, append_nonempty_l; discriminate).
  rewrite (str_last_app g) by (apply append_nonempty_l; discriminate).
  destruct Ht as [->| ->]; [left|right]; reflexivity.
Qed.

(** The [KeyError] of an omitted field gives the field name as only key. *)
Lemma replay_keys_KeyError (field_name : string) :
  replay_keys field_name (KeyError field_name) = [field_name].
Proof.
  unfold replay_keys. cbn [exc_str].
  destruct (ERR_RE_search _) as [g|] eqn:E; [|reflexivity].
  apply ERR_RE_search_last in E.
  rewrite (str_last_app "'") in E by (apply append_nonempty_r; discriminate).
  rewrite (str_last_app field_name) in E by discriminate.
  destruct E as [E|E]; discriminate E.
Qed.




Lemma create_exception_client cls connection messages m :
  m ∈ messages -> is_client_error cls m = true ->
  _create_exception cls connection messages =
    ValidationException
      ("Validation failed for " +:+ connection_method connection +:+ " " +:+ url connection)
      (List.filter (is_client_error cls) messages)
  /\ m ∈ List.filter (is_client_error cls) messages.
Proof.
  intros Hin Hm.
  assert (Hf : m ∈ List.filter (is_client_error cls) messages).
  { apply list_elem_of_In, filter_In. split; [apply list_elem_of_In, Hin|exact Hm]. }
  split; [|exact Hf]. unfold _create_exception.
  destruct (List.filter (is_client_error cls) messages); [|reflexivity].
  apply list_elem_of_In in Hf. destruct Hf.
Qed.

Lemma create_field_default field_definition has_data_dto type_decoders f writes :
  create_field field_definition has_data_dto type_decoders = Ok (f, writes) ->
  f.1.1 = name field_definition
  /\ f.2 = (if has_default field_definition
            then Default (default_value field_definition) else NODEFAULT).
Proof.
  unfold create_field. intros H.
  destruct (create_meta_data field_definition) as [meta_data|]; [|discriminate].
  destruct (_create_annotation _ _ _ _) as [[a w]|]; [|discriminate].
  injection H as <- _. auto.
Qed.

Lemma create_fields_default params has_data_dto type_decoders fs writes :
  create_fields params has_data_dto type_decoders = Ok (fs, writes) ->
  Forall2 (fun field_definition f =>
             f.1.1 = name field_definition
             /\ f.2 = (if has_default field_definition
                       then Default (default_value field_definition) else NODEFAULT))
          params fs.
Proof.
  revert fs writes. induction params as [|fd params IH]; intros fs writes H.
  - injection H as <- _. constructor.
  - cbn [create_fields] in H.
    destruct (create_field fd has_data_dto type_decoders) as [[f w]|] eqn:E; [|discriminate].
    destruct (create_fields params has_data_dto type_decoders) as [[fs' w']|]; [|discriminate].
    injection H as <- _. constructor; [eapply create_field_default, E|eapply IH; reflexivity].
Qed.

(** *** Dictionaries *)

Lemma dict_get_set {V} (d : list (string * V)) k v k' :
  dict_get (dict_set d k v) k' = if bool_decide (k = k') then Some v else dict_get d k'.
Proof.
  induction d as [|[k0 v0] d IH]; cbn [dict_set dict_get].
  - reflexivity.
  - destruct (bool_decide (k0 = k)) eqn:E; cbn [dict_get].
    + apply bool_decide_eq_true in E as ->. destruct (bool_decide (k = k')); reflexivity.
    + rewrite IH. destruct (bool_decide (k0 = k')) eqn:E'; [|reflexivity].
      apply bool_decide_eq_true in E' as ->. rewrite bool_decide_eq_false_2; [reflexivity|].
      apply bool_decide_eq_false in E. congruence.
Qed.

Lemma dict_get_None {V} (d : list (string * V)) k :
  dict_get d k = None <-> k ∉ dict_keys d.
Proof.
  unfold dict_keys. induction d as [|[k0 v0] d IH]; cbn [dict_get fmap list_fmap fst].
  - split; [intros _; apply not_elem_of_nil|reflexivity].
  - rewrite not_elem_of_cons. destruct (bool_decide (k0 = k)) eqn:E.
    + apply bool_decide_eq_true in E. split; [discriminate|intros [? _]; congruence].
    + apply bool_decide_eq_false in E. rewrite IH. split; [intros ?; split; congruence|tauto].
Qed.

Lemma dict_keys_del {V} (d : list (string * V)) k k' :
  k' ∈ dict_keys (dict_del d k) -> k' ∈ dict_keys d.
Proof.
  unfold dict_keys. induction d as [|[k0 v0] d IH]; cbn [dict_del]; [auto|].
  destruct (bool_decide (k0 = k)); cbn [fmap list_fmap fst].
  - rewrite elem_of_cons. auto.
  - rewrite !elem_of_cons. intros [?|?]; auto.
Qed.

Lemma dict_del_NoDup {V} (d : list (string * V)) k :
  NoDup (dict_keys d) -> NoDup (dict_keys (dict_del d k)).
Proof.
  unfold dict_keys. induction d as [|[k0 v0] d IH]; cbn [dict_del]; [auto|].
  cbn [fmap list_fmap fst]. intros [Hk0 Hd]%NoDup_cons.
  destruct (bool_decide (k0 = k)); [exact Hd|].
  cbn [fmap list_fmap fst]. apply NoDup_cons. split; [|auto].
  intros H. apply Hk0. eapply dict_keys_del, H.
Qed.

Lemma dict_get_del {V} (d : list (string * V)) k k' :
  NoDup (dict_keys d) ->
  dict_get (dict_del d k) k' = if bool_decide (k = k') then None else dict_get d k'.
Proof.
  unfold dict_keys. induction d as [|[k0 v0] d IH]; cbn [dict_del dict_get].
  - destruct (bool_decide (k = k')); reflexivity.
  - cbn [fmap list_fmap fst]. intros [Hk0 Hd]%NoDup_cons.
    destruct (bool_decide (k0 = k)) eqn:E.
    + apply bool_decide_eq_true in E as ->.
      destruct (bool_decide (k = k')) eqn:E'; [|reflexivity].
      apply bool_decide_eq_true in E' as <-. apply dict_get_None, Hk0.
    + cbn [dict_get]. rewrite (IH Hd). apply bool_decide_eq_false in E.
      destruct (bool_decide (k0 = k')) eqn:E'; [|reflexivity].
      apply bool_decide_eq_true in E' as ->. rewrite bool_decide_eq_false_2; congruence.
Qed.

Lemma dict_keys_filter {V} (p : string * V -> bool) (d : list (string * V)) k :
  k ∈ dict_keys (List.filter p d) -> k ∈ dict_keys d.
Proof.
  unfold dict_keys. induction d as [|[k0 v0] d IH]; cbn [List.filter]; [auto|].
  destruct (p (k0, v0)); cbn [fmap list_fmap fst]; rewrite ?elem_of_cons; [|auto].
  intros [?|?]; auto.
Qed.

Lemma dict_filter_NoDup {V} (p : string * V -> bool) (d : list (string * V)) :
  NoDup (dict_keys d) -> NoDup (dict_keys (List.filter p d)).
Proof.
  unfold dict_keys. induction d as [|[k0 v0] d IH]; cbn [List.filter]; [auto|].
  cbn [fmap list_fmap fst]. intros [Hk0 Hd]%NoDup_cons.
  destruct (p (k0, v0)); [|auto].
  cbn [fmap list_fmap fst]. apply NoDup_cons. split; [|auto].
  intros H. apply Hk0. eapply dict_keys_filter, H.
Qed.

Lemma dict_get_filter {V} (p : string * V -> bool) (d : list (string * V)) k :
  NoDup (dict_keys d) ->
  dict_get (List.filter p d) k =
    match dict_get d k with
    | Some v => if p (k, v) then Some v else None
    | None => None
    end.
Proof.
  unfold dict_keys. induction d as [|[k0 v0] d IH]; cbn [List.filter dict_get]; [auto|].
  cbn [fmap list_fmap fst]. intros [Hk0 Hd]%NoDup_cons.
  destruct (bool_decide (k0 = k)) eqn:E.
  - apply bool_decide_eq_true in E as ->. destruct (p (k, v0)).
    + cbn [dict_get]. rewrite bool_decide_eq_true_2; reflexivity.
    + apply dict_get_None. intros H. apply Hk0. eapply dict_keys_filter, H.
  - destruct (p (k0, v0)); [|auto]. cbn [dict_get]. rewrite E. auto.
Qed.

(** *** Constraints *)

Lemma translate_items_spec items :
  NoDup (dict_keys items) -> "extra" ∉ dict_keys items ->
  forall meta extra0,
    dict_get meta "extra" = Some (PyDict extra0) ->
    exists meta' extra',
      translate_items items meta = Ok meta'
      /\ dict_get meta' "extra" = Some (PyDict extra')
      /\ (forall k, k <> "extra" ->
            dict_get meta' k =
              match dict_get items k with
              | Some v => if hasattr_Meta k && negb (is_none v) then Some v else dict_get meta k
              | None => dict_get meta k
              end)
      /\ (forall k,
            dict_get extra' k =
              match dict_get items k with
              | Some v => if hasattr_Meta k && negb (is_none v) then dict_get extra0 k else Some v
              | None => dict_get extra0 k
              end).
Proof.
  unfold dict_keys. induction items as [|[k0 v0] items IH]; intros Hnd Hex meta extra0 Hmeta.
  - exists meta, extra0. auto.
  - cbn [fmap list_fmap fst] in Hnd, Hex.
    apply NoDup_cons in Hnd as [Hk0 Hnd]. apply not_elem_of_cons in Hex as [Hne Hex].
    apply dict_get_None in Hk0.
    cbn [translate_items dict_get].
    destruct (hasattr_Meta k0 && negb (is_none v0)) eqn:Hdirect.
    + destruct (IH Hnd Hex (dict_set meta k0 v0) extra0) as (meta' & extra' & Ht & He & Hm & Hx).
      { rewrite dict_get_set, bool_decide_eq_false_2; [exact Hmeta|congruence]. }
      exists meta', extra'. split; [exact Ht|]. split; [exact He|]. split.
      * intros k Hk. rewrite (Hm k Hk), dict_get_set.
        destruct (bool_decide (k0 = k)) eqn:E.
        -- apply bool_decide_eq_true in E as <-. rewrite Hk0, Hdirect. reflexivity.
        -- reflexivity.
      * intros k. rewrite (Hx k).
        destruct (bool_decide (k0 = k)) eqn:E; [|reflexivity].
        apply bool_decide_eq_true in E as <-. rewrite Hk0, Hdirect. reflexivity.
    + unfold set_extra. rewrite Hmeta.
      destruct (IH Hnd Hex (dict_set meta "extra" (PyDict (dict_set extra0 k0 v0)))
                  (dict_set extra0 k0 v0)) as (meta' & extra' & Ht & He & Hm & Hx).
      { rewrite dict_get_set, bool_decide_eq_true_2; reflexivity. }
      exists meta', extra'. split; [exact Ht|]. split; [exact He|]. split.
      * intros k Hk. rewrite (Hm k Hk), dict_get_set.
        rewrite (bool_decide_eq_false_2 ("extra" = k)) by congruence.
        destruct (bool_decide (k0 = k)) eqn:E; [|reflexivity].
        apply bool_decide_eq_true in E as <-. rewrite Hk0, Hdirect. reflexivity.
      * intros k. rewrite (Hx k), dict_get_set.
        destruct (bool_decide (k0 = k)) eqn:E; [|reflexivity].
        apply bool_decide_eq_true in E as <-. rewrite Hk0, Hdirect. reflexivity.
Qed.

(** What [create] hands to [Meta] for a constraint object whose field
    names are distinct and do not include [extra]: every key other than
    [extra] and every key of the [extra] dictionary, as a function of the
    fields. *)
Lemma create_meta_kwargs_spec kwarg_definition_ :
  NoDup (dict_keys (kwarg_fields kwarg_definition_)) ->
  "extra" ∉ dict_keys (kwarg_fields kwarg_definition_) ->
  let kd := simple_asdict kwarg_definition_ in
  let min_items := default PyNone (dict_get kd "min_items") in
  let max_items := default PyNone (dict_get kd "max_items") in
  let renamed k :=
    if truthy max_items && bool_decide ("max_length" = k) then Some max_items
    else if truthy min_items && bool_decide ("min_length" = k) then Some min_items
    else None in
  let remaining k :=
    if bool_decide ("max_items" = k) || bool_decide ("min_items" = k) then None
    else dict_get kd k in
  exists meta extra,
    create_meta_kwargs kwarg_definition_ = Ok meta
    /\ dict_get meta "extra" = Some (PyDict extra)
    /\ (forall k, k <> "extra" ->
          dict_get meta k =
            match remaining k with
            | Some v => if hasattr_Meta k && negb (is_none v) then Some v else renamed k
            | None => renamed k
            end)
    /\ (forall k,
          dict_get extra k =
            match remaining k with
            | Some v => if hasattr_Meta k && negb (is_none v) then None else Some v
            | None => None
            end).
Proof.
  intros Hnd Hex kd min_items max_items renamed remaining.
  assert (Hnd0 : NoDup (dict_keys kd)) by (apply dict_filter_NoDup, Hnd).
  assert (Hex0 : "extra" ∉ dict_keys kd).
  { intros H. apply Hex. eapply dict_keys_filter, H. }
  unfold create_meta_kwargs, dict_pop. fold kd. cbv zeta.
  rewrite (dict_get_del kd "min_items" "max_items" Hnd0).
  rewrite (bool_decide_eq_false_2 ("min_items" = "max_items")) by discriminate.
  fold min_items max_items.
  set (meta1 := if truthy min_items then _ else _).
  set (meta2 := if truthy max_items then _ else _).
  assert (Hmeta2 : forall k, dict_get meta2 k =
                     if bool_decide ("extra" = k) then Some (PyDict [])
                     else renamed k).
  { intros k. subst meta2 meta1 renamed. cbv beta.
    destruct (truthy max_items), (truthy min_items); cbn [andb];
      rewrite ?dict_get_set; cbn [dict_get];
      repeat (match goal with
              | |- context [bool_decide (?a = k)] =>
                  let E := fresh "E" in
                  destruct (bool_decide (a = k)) eqn:E;
                  [apply bool_decide_eq_true in E; subst k|]
              end; try reflexivity; try discriminate). }
  destruct (translate_items_spec (dict_del (dict_del kd "min_items") "max_items"))
    with (meta := meta2) (extra0 := @nil (string * PyValue))
    as (meta & extra & Ht & He & Hm & Hx).
  { apply dict_del_NoDup, dict_del_NoDup, Hnd0. }
  { intros H. apply Hex0. eapply dict_keys_del, dict_keys_del, H. }
  { rewrite Hmeta2. reflexivity. }
  assert (Hrem : forall k, dict_get (dict_del (dict_del kd "min_items") "max_items") k
                           = remaining k).
  { intros k. rewrite dict_get_del by (apply dict_del_NoDup, Hnd0).
    rewrite dict_get_del by exact Hnd0. subst remaining. cbv beta.
    destruct (bool_decide ("max_items" = k)), (bool_decide ("min_items" = k)); reflexivity. }
  exists meta, extra. split; [exact Ht|]. split; [exact He|]. split.
  - intros k Hk. rewrite (Hm k Hk), Hrem, Hmeta2.
    rewrite (bool_decide_eq_false_2 ("extra" = k)) by congruence. reflexivity.
  - intros k. rewrite (Hx k), Hrem. cbn [dict_get]. reflexivity.
Qed.

Lemma simple_asdict_keeps kwarg_definition_ k v :
  NoDup (dict_keys (kwarg_fields kwarg_definition_)) ->
  dict_get (kwarg_fields kwarg_definition_) k = Some v -> v <> PyEmpty ->
  dict_get (simple_asdict kwarg_definition_) k = Some v.
Proof.
  intros Hnd Hv Hne. unfold simple_asdict. rewrite dict_get_filter by exact Hnd.
  rewrite Hv. destruct v; simpl; congruence.
Qed.


Lemma is_none_false (v : PyValue) : v <> PyNone -> is_none v = false.
Proof. destruct v; simpl; congruence. Qed.


(** *** Annotations *)

(** For an optional union the code keeps one member only: the annotation
    it returns is [Optional] of the normalization of the first member that
    is not the none type, whatever members follow it. *)
Lemma optional_union_keeps_first_member
    field_definition has_data_dto type_decoders meta_data a writes :
  is_any (_normalize_annotation field_definition has_data_dto) = false ->
  is_union field_definition = true ->
  is_optional field_definition = true ->
  _create_annotation field_definition has_data_dto type_decoders meta_data = Ok (a, writes) ->
  exists nones first_type others first writes',
    inner_types field_definition = nones ++ first_type :: others
    /\ Forall (fun t => is_none_type (annotation t) = true) nones
    /\ is_none_type (annotation first_type) = false
    /\ _create_annotation first_type has_data_dto type_decoders meta_data
         = Ok (first, writes')
    /\ a = TOptional first.
Proof.
  intros Hany Hunion Hopt H.
  destruct field_definition as [n ann inner u o kd hd dv].
  cbn [is_union is_optional inner_types] in *. subst u o.
  cbn [_create_annotation] in H. rewrite Hany in H.
  cbn [is_union is_optional inner_types] in H.
  match type of H with
  | match ?loop inner with _ => _ end = _ =>
      assert (Hloop : forall l types w,
                 loop l = Ok (types, w) ->
                 match types with
                 | [] => True
                 | first :: _ =>
                     exists nones first_type others writes',
                       l = nones ++ first_type :: others
                       /\ Forall (fun t => is_none_type (annotation t) = true) nones
                       /\ is_none_type (annotation first_type) = false
                       /\ _create_annotation first_type has_data_dto type_decoders meta_data
                            = Ok (first, writes')
                 end);
      [|destruct (loop inner) as [[types w]|] eqn:E; [|discriminate];
        specialize (Hloop _ _ _ E)]
  end.
  - induction l as [|t l IH]; intros types w Hl.
    + injection Hl as <- _. exact I.
    + simpl in Hl. destruct (is_none_type (annotation t)) eqn:Hnone.
      * specialize (IH _ _ Hl). destruct types as [|first types]; [exact I|].
        destruct IH as (nones & ft & others & w' & -> & Hn & Hf & Hc).
        exists (t :: nones), ft, others, w'. repeat split; auto.
      * destruct (_create_annotation t has_data_dto type_decoders meta_data)
          as [[a0 w0]|] eqn:Ea; [|discriminate].
        match type of Hl with
        | match ?r with _ => _ end = _ => destruct r as [[ts ws]|]; [|discriminate]
        end.
        injection Hl as <- _. exists [], t, l, w0. repeat split; auto.
  - destruct types as [|first types]; [discriminate|]. injection H as <- _.
    destruct Hloop as (nones & ft & others & w' & Hl & Hn & Hf & Hc).
    exists nones, ft, others, first, w'. auto.
Qed.

(** *** More on the pattern [ERR_RE] *)

Lemma prefix_nil_l (s : string) : String.prefix "" s = true.
Proof. destruct s; reflexivity. Qed.

Lemma prefix_append_same (p r : string) : String.prefix p (p +:+ r) = true.
Proof.
  induction p as [|c p IH]; [apply prefix_nil_l|].
  rewrite append_cons. cbn [String.prefix].
  destruct (Ascii.ascii_dec c c); [exact IH|congruence].
Qed.

Lemma ERR_RE_match_here_prefix (s : string) :
  String.prefix "`$." s = false -> ERR_RE_match_here s = None.
Proof.
  intros H. destruct (ERR_RE_match_here s) as [g|] eqn:E; [|reflexivity].
  destruct (ERR_RE_match_here_spec _ _ E) as [_ [->| ->]];
    rewrite prefix_append_same in H; discriminate.
Qed.

Lemma match_group_tail_complete (g tail : string) :
  g <> "" -> str_contains (String newline "") g = false ->
  tail = "" \/ tail = String newline "" ->
  match_group_tail (g +:+ "`" +:+ tail) = Some g.
Proof.
  intros Hg Hnl Ht. induction g as [|c g IH]; [congruence|].
  rewrite append_cons. cbn [match_group_tail].
  cbn [str_contains] in Hnl. apply orb_false_iff in Hnl as [Hc Hnl].
  assert (Hc' : is_newline c = false).
  { unfold is_newline. apply bool_decide_eq_false. intros ->.
    cbn in Hc. destruct (Ascii.ascii_dec newline newline); [|congruence].
    destruct g; discriminate. }
  rewrite Hc'. destruct g as [|d g].
  - rewrite append_nil_l. destruct Ht as [->| ->]; reflexivity.
  - rewrite IH; [reflexivity|discriminate|exact Hnl].
Qed.

(** No match begins inside a text that holds no backquote-dollar-dot,
    also when such a marker follows the text. *)
Lemma ERR_RE_search_skip (before rest : string) :
  str_contains "`$." before = false ->
  ERR_RE_search (before +:+ "`" +:+ rest) = ERR_RE_search ("`" +:+ rest).
Proof.
  induction before as [|c before IH]; intros H; [reflexivity|].
  cbn [str_contains] in H. apply orb_false_iff in H as [Hp Hc].
  rewrite append_cons. cbn [ERR_RE_search].
  rewrite ERR_RE_match_here_prefix; [exact (IH Hc)|].
  change ("`" +:+ rest) with (String "`" rest).
  destruct before as [|c2 [|c3 before]];
    rewrite ?append_cons, ?append_nil_l; cbn [String.prefix] in Hp |- *.
  - destruct (Ascii.ascii_dec "`" c); [|reflexivity].
    destruct (Ascii.ascii_dec "$" "`"); [discriminate|reflexivity].
  - destruct (Ascii.ascii_dec "`" c); [|reflexivity].
    destruct (Ascii.ascii_dec "$" c2); [|reflexivity].
    destruct (Ascii.ascii_dec "." "`"); [discriminate|reflexivity].
  - destruct (Ascii.ascii_dec "`" c); [|reflexivity].
    destruct (Ascii.ascii_dec "$" c2); [|reflexivity].
    destruct (Ascii.ascii_dec "." c3); [|reflexivity].
    destruct before; discriminate.
Qed.

(** X1.  The path that the decoder appends to a failure text, between a
    backquote with [$.] and a closing backquote at the end of the text (or
    before a final newline), is what [ERR_RE] extracts, provided the text
    before it holds no such marker and the path is not empty and has no
    newline; the keys of the replayed failure are then the field name and
    that path. *)
Theorem ERR_RE_search_path (before path tail : string) :
  str_contains "`$." before = false ->
  path <> "" ->
  str_contains (String newline "") path = false ->
  tail = "" \/ tail = String newline "" ->
  ERR_RE_search (before +:+ "`$." +:+ path +:+ "`" +:+ tail) = Some path
  /\ forall field_name,
       replay_keys field_name (ValidationError (before +:+ "`$." +:+ path +:+ "`" +:+ tail))
         = [field_name; path].
Proof.
  intros Hb Hp Hnl Ht.
  assert (Hs : ERR_RE_search (before +:+ "`$." +:+ path +:+ "`" +:+ tail) = Some path).
  { change (before +:+ "`$." +:+ path +:+ "`" +:+ tail)
      with (before +:+ "`" +:+ ("$." +:+ path +:+ "`" +:+ tail)).
    rewrite ERR_RE_search_skip by exact Hb.
    change ("`" +:+ "$." +:+ path +:+ "`" +:+ tail)
      with (String "`" (String "$" (String "." (path +:+ "`" +:+ tail)))).
    cbn [ERR_RE_search ERR_RE_match_here].
    rewrite match_group_tail_complete by assumption. reflexivity. }
  split; [exact Hs|]. intros field_name. unfold replay_keys. cbn [exc_str].
  rewrite Hs. reflexivity.
Qed.

(** *** More on annotations *)

(** X2.  For a union without the none type the returned annotation is the
    union of the normalizations of all members that are not the none type,
    in their order: none of them is left out. *)
Theorem union_keeps_members
    field_definition has_data_dto type_decoders meta_data a writes :
  is_any (_normalize_annotation field_definition has_data_dto) = false ->
  is_union field_definition = true ->
  is_optional field_definition = false ->
  _create_annotation field_definition has_data_dto type_decoders meta_data = Ok (a, writes) ->
  exists members,
    a = TUnion members
    /\ members <> []
    /\ Forall2
         (fun inner_type member =>
            exists writes',
              _create_annotation inner_type has_data_dto type_decoders meta_data
                = Ok (member, writes'))
         (List.filter (fun t => negb (is_none_type (annotation t)))
            (inner_types field_definition))
         members.
Proof.
  intros Hany Hunion Hopt H.
  destruct field_definition as [n ann inner u o kd hd dv].
  cbn [is_union is_optional inner_types] in *. subst u o.
  cbn [_create_annotation] in H. rewrite Hany in H.
  cbn [is_union is_optional inner_types] in H.
  match type of H with
  | match ?loop inner with _ => _ end = _ =>
      assert (Hloop : forall l types w,
                 loop l = Ok (types, w) ->
                 Forall2
                   (fun inner_type member =>
                      exists writes',
                        _create_annotation inner_type has_data_dto type_decoders meta_data
                          = Ok (member, writes'))
                   (List.filter (fun t => negb (is_none_type (annotation t))) l) types);
      [|destruct (loop inner) as [[types w]|] eqn:E; [|discriminate];
        specialize (Hloop _ _ _ E)]
  end.
  - induction l as [|t l IH]; intros types w Hl.
    + injection Hl as <- _. constructor.
    + simpl in Hl. cbn [List.filter].
      destruct (is_none_type (annotation t)) eqn:Hnone; cbn [negb].
      * apply (IH _ _ Hl).
      * destruct (_create_annotation t has_data_dto type_decoders meta_data)
          as [[a0 w0]|] eqn:Ea; [|discriminate].
        match type of Hl with
        | match ?r with _ => _ end = _ =>
            destruct r as [[ts ws]|] eqn:Er; [|discriminate]
        end.
        injection Hl as <- _. constructor; [eauto|]. apply (IH _ _ eq_refl).
  - destruct types as [|first types]; [discriminate|]. injection H as <- _.
    exists (first :: types). split; [reflexivity|]. split; [discriminate|exact Hloop].
Qed.

(** *** More on the replay *)

Lemma collect_field_cases cls deserializer kwargs field_name :
  collect_field cls deserializer kwargs field_name = []
  \/ exists e, collect_field cls deserializer kwargs field_name = [(field_name, e)].
Proof.
  unfold collect_field.
  repeat (match goal with
          | |- context [match ?x with _ => _ end] => destruct x
          end); eauto.
Qed.

(** X3.  The replay reports fields in the order of [_fields], each at most
    once: the reported names are a sublist of the field names, and they
    are distinct when the field names are. *)
Theorem collect_errors_in_order cls deserializer kwargs :
  (_collect_errors cls deserializer kwargs).*1 `sublist_of` dict_keys (_fields cls)
  /\ length (_collect_errors cls deserializer kwargs) <= length (_fields cls)
  /\ (NoDup (dict_keys (_fields cls)) ->
      NoDup (_collect_errors cls deserializer kwargs).*1).
Proof.
  assert (Hsub : (_collect_errors cls deserializer kwargs).*1
                   `sublist_of` dict_keys (_fields cls)).
  { unfold _collect_errors. induction (dict_keys (_fields cls)) as [|k ks IH].
    - constructor.
    - cbn [flat_map]. rewrite fmap_app.
      destruct (collect_field_cases cls deserializer kwargs k) as [->|[e ->]].
      + cbn. apply sublist_cons, IH.
      + cbn. apply sublist_skip, IH. }
  split; [exact Hsub|]. split.
  - apply sublist_length in Hsub. unfold dict_keys in Hsub.
    rewrite !length_fmap in Hsub. exact Hsub.
  - intros Hnd. eapply sublist_NoDup; eassumption.
Qed.

(** X4.  With no kwargs at all the replay reports every field of the
    model, in order, with a [KeyError]; when the decode failed without a
    per-field breakdown the call then builds one message per field, each
    from the field name alone and the text of that failure. *)
Theorem empty_kwargs_report_every_field cls connection :
  _collect_errors cls (connection_deserializer connection) ∅
    = map (fun field_name => (field_name, KeyError field_name)) (dict_keys (_fields cls))
  /\ forall text,
       convert_struct cls ∅ (connection_deserializer connection)
         = Raise (ValidationError text) ->
       parse_values_from_connection_kwargs cls connection ∅
         = Raise (_create_exception cls connection
                    (map (fun field_name =>
                            _build_error_message cls [field_name] text connection)
                         (dict_keys (_fields cls)))).
Proof.
  assert (Hcol : forall d, _collect_errors cls d ∅
                 = map (fun field_name => (field_name, KeyError field_name))
                       (dict_keys (_fields cls))).
  { intros d. unfold _collect_errors. induction (dict_keys (_fields cls)) as [|k ks IH].
    - reflexivity.
    - cbn [flat_map map]. rewrite IH. unfold collect_field at 1.
      rewrite lookup_empty. reflexivity. }
  split; [apply Hcol|]. intros text Hconv.
  unfold parse_values_from_connection_kwargs. rewrite Hconv, Hcol.
  unfold replay_messages. rewrite map_map. do 2 f_equal.
  apply map_ext. intros k. cbn [fst snd]. rewrite replay_keys_KeyError. reflexivity.
Qed.

(** *** More on the exceptions *)

Lemma create_exception_validation_inv cls connection messages detail extra :
  _create_exception cls connection messages = ValidationException detail extra ->
  extra = List.filter (is_client_error cls) messages /\ extra <> [].
Proof.
  unfold _create_exception.
  destruct (List.filter (is_client_error cls) messages) as [|m ms] eqn:E; [discriminate|].
  intros [= _ <-]. split; [reflexivity|discriminate].
Qed.

(** X5.  When the decode fails with a decode failure and the call raises a
    [ValidationException], its extra payload is not empty and holds no
    message whose key is in the dependency name set. *)
Theorem validation_exception_withholds_dependencies cls connection kwargs e detail extra :
  convert_struct cls kwargs (connection_deserializer connection) = Raise e ->
  is_decode_failure e = true ->
  parse_values_from_connection_kwargs cls connection kwargs
    = Raise (ValidationException detail extra) ->
  extra <> []
  /\ Forall (fun m => forall k, key m = Some k -> k ∉ _dependency_name_set cls) extra.
Proof.
  intros Hconv Hdec Hparse. unfold parse_values_from_connection_kwargs in Hparse.
  rewrite Hconv in Hparse.
  assert (Hex : exists messages,
             _create_exception cls connection messages = ValidationException detail extra).
  { destruct e; try discriminate Hdec; injection Hparse as Hparse; eauto. }
  destruct Hex as [messages Hex].
  apply create_exception_validation_inv in Hex as [-> Hne]. split; [exact Hne|].
  apply Forall_forall. intros m Hm k Hk.
  apply list_elem_of_In, filter_In in Hm as [_ Hm].
  unfold is_client_error in Hm. rewrite Hk in Hm.
  apply negb_true_iff, bool_decide_eq_false in Hm. exact Hm.
Qed.

(** X6.  A sub-error of a structured failure that has no location gives a
    message without key and without source, and the call then raises a
    [ValidationException] that carries this message, whatever the other
    sub-errors are about. *)
Theorem structured_error_without_location cls connection kwargs errors text exc :
  convert_struct cls kwargs (connection_deserializer connection)
    = Raise (ExtendedMsgSpecValidationError errors text) ->
  exc ∈ errors ->
  loc exc = [] ->
  exists detail extra,
    parse_values_from_connection_kwargs cls connection kwargs
      = Raise (ValidationException detail extra)
    /\ mkErrorMessage None (split_head " - " (msg exc)) None ∈ extra.
Proof.
  intros Hconv Hin Hloc. unfold parse_values_from_connection_kwargs. rewrite Hconv.
  destruct (create_exception_client cls connection
              (structured_messages cls connection errors)
              (mkErrorMessage None (split_head " - " (msg exc)) None)) as [Hexc Hm].
  - unfold structured_messages. apply list_elem_of_In, in_map_iff.
    exists exc. split; [|apply list_elem_of_In, Hin].
    rewrite Hloc. reflexivity.
  - reflexivity.
  - eexists _, _. split; [rewrite Hexc; reflexivity|exact Hm].
Qed.

(** X7.  For a model without dependency names nothing is withheld: a
    structured failure with at least one sub-error raises a
    [ValidationException] that carries one message per sub-error, in the
    order of the sub-errors. *)
Theorem no_dependencies_all_messages cls connection kwargs errors text :
  _dependency_name_set cls = ∅ ->
  errors <> [] ->
  convert_struct cls kwargs (connection_deserializer connection)
    = Raise (ExtendedMsgSpecValidationError errors text) ->
  parse_values_from_connection_kwargs cls connection kwargs
    = Raise (ValidationException
               ("Validation failed for " +:+ connection_method connection +:+ " "
                  +:+ url connection)
               (structured_messages cls connection errors))
  /\ length (structured_messages cls connection errors) = length errors.
Proof.
  intros Hdeps Hne Hconv. unfold parse_values_from_connection_kwargs. rewrite Hconv.
  split; [|apply length_map].
  assert (Hall : forall messages, List.filter (is_client_error cls) messages = messages).
  { intros messages. induction messages as [|m ms IH]; [reflexivity|].
    cbn [List.filter]. rewrite IH.
    assert (Hm : is_client_error cls m = true).
    { unfold is_client_error. destruct (key m) as [k|]; [|reflexivity].
      rewrite Hdeps. apply negb_true_iff, bool_decide_eq_false, not_elem_of_empty. }
    rewrite Hm. reflexivity. }
  unfold _create_exception. rewrite Hall.
  destruct errors as [|exc errors]; [congruence|]. reflexivity.
Qed.

(** *** More on [create] *)

Lemma create_fields_names params has_data_dto type_decoders fs writes :
  create_fields params has_data_dto type_decoders = Ok (fs, writes) ->
  map (fun f => f.1.1) fs = map name params.
Proof.
  intros H. apply create_fields_default in H.
  induction H as [|fd f params fs [Hn _] _ IH]; [reflexivity|].
  cbn [map]. rewrite Hn, IH. reflexivity.
Qed.

Lemma annotations_keys (fs : list (string * Annotation * StructDefault)) :
  dict_keys (map (fun f => (f.1.1, f.1.2)) fs) = map (fun f => f.1.1) fs.
Proof.
  unfold dict_keys. induction fs as [|f fs IH]; [reflexivity|].
  cbn [map fmap list_fmap fst]. f_equal. exact IH.
Qed.

Lemma parameters_keys (params : list (string * FieldDefinition)) :
  Forall (fun p => p.1 = name p.2) params ->
  map name params.*2 = dict_keys params.
Proof.
  unfold dict_keys. induction 1 as [|[k fd] ps Hk _ IH]; [reflexivity|].
  cbn [fmap list_fmap map fst snd] in *. rewrite <- Hk, IH. reflexivity.
Qed.

(** X8.  The name of the model that [create] builds is the name of the
    handler followed by [_signature_model]; a handler without a name, with
    an empty name or with the name of a lambda is called [anonymous], so
    the model is never named after a lambda or after nothing. *)
Theorem create_model_name
    dependency_name_set fn has_data_dto parsed_signature type_decoders cls writes :
  create dependency_name_set fn has_data_dto parsed_signature type_decoders
    = Ok (cls, writes) ->
  model_name cls = create_fn_name fn +:+ "_signature_model"
  /\ create_fn_name fn <> "" /\ create_fn_name fn <> "<lambda>"
  /\ (fn___name__ fn = None \/ fn___name__ fn = Some "" \/ fn___name__ fn = Some "<lambda>" ->
      model_name cls = "anonymous_signature_model")
  /\ (forall n, fn___name__ fn = Some n -> n <> "" -> n <> "<lambda>" ->
      model_name cls = n +:+ "_signature_model").
Proof.
  intros H. unfold create in H.
  destruct (_validate_signature_dependencies _ _ _) as [names|]; [|discriminate].
  destruct (create_fields _ _ _) as [[fs w]|]; [|discriminate].
  injection H as <- _. cbn [model_name].
  split; [reflexivity|]. unfold create_fn_name.
  split; [|split; [|split]].
  - destruct (fn___name__ fn) as [n|]; cbn [default]; unfold id.
    + destruct (bool_decide (n = "")) eqn:E; cbn [negb andb]; [discriminate|].
      apply bool_decide_eq_false in E.
      destruct (bool_decide (n = "<lambda>")); cbn [negb]; [discriminate|exact E].
    + discriminate.
  - destruct (fn___name__ fn) as [n|]; cbn [default]; unfold id.
    + destruct (bool_decide (n = "")); cbn [negb andb]; [discriminate|].
      destruct (bool_decide (n = "<lambda>")) eqn:E; cbn [negb]; [discriminate|].
      apply bool_decide_eq_false in E. exact E.
    + discriminate.
  - intros [->|[->| ->]]; reflexivity.
  - intros n -> Hn Hl. cbn [default]; unfold id.
    rewrite (bool_decide_eq_false_2 (n = "")) by exact Hn.
    rewrite (bool_decide_eq_false_2 (n = "<lambda>")) by exact Hl. reflexivity.
Qed.

(** X9.  A model that [create] builds from parameters stored under their
    own names keeps the parameters as its [_fields] and has an annotation
    for every one of them; so for a field that the kwargs hold the lookup
    of the annotation in the replay cannot fail, and the replay reports
    for it exactly what the conversion of its value raises. *)
Theorem created_model_replay
    dependency_name_set fn has_data_dto parsed_signature type_decoders cls writes :
  create dependency_name_set fn has_data_dto parsed_signature type_decoders
    = Ok (cls, writes) ->
  Forall (fun p => p.1 = name p.2) (parameters parsed_signature) ->
  _fields cls = parameters parsed_signature
  /\ dict_keys (__annotations__ cls) = dict_keys (_fields cls)
  /\ forall deserializer (kwargs : gmap string PyValue) field_name raw_value,
       field_name ∈ dict_keys (_fields cls) ->
       kwargs !! field_name = Some raw_value ->
       exists annotation_,
         dict_get (__annotations__ cls) field_name = Some annotation_
         /\ collect_field cls deserializer kwargs field_name =
              match convert_value raw_value annotation_ deserializer with
              | Ok _ => []
              | Raise e => [(field_name, e)]
              end.
Proof.
  intros H Hnames. unfold create in H.
  destruct (_validate_signature_dependencies _ _ _) as [names|]; [|discriminate].
  destruct (create_fields _ _ _) as [[fs w]|] eqn:E; [|discriminate].
  injection H as <- _. cbn [_fields].
  assert (Hkeys : dict_keys (__annotations__
                    (mkSignatureModel (create_fn_name fn +:+ "_signature_model")
                       (fn___module__ fn) fs (annotation (return_type parsed_signature))
                       names (parameters parsed_signature)))
                  = dict_keys (parameters parsed_signature)).
  { unfold __annotations__. cbn [struct_fields].
    rewrite annotations_keys, (create_fields_names _ _ _ _ _ E).
    apply parameters_keys, Hnames. }
  split; [reflexivity|]. split; [exact Hkeys|].
  intros deserializer kwargs field_name raw_value Hin Hk.
  destruct (dict_get (__annotations__
              (mkSignatureModel (create_fn_name fn +:+ "_signature_model")
                 (fn___module__ fn) fs (annotation (return_type parsed_signature))
                 names (parameters parsed_signature))) field_name)
    as [annotation_|] eqn:Ha.
  - exists annotation_. split; [reflexivity|]. unfold collect_field. rewrite Hk, Ha.
    reflexivity.
  - apply dict_get_None in Ha. rewrite Hkeys in Ha. contradiction.
Qed.

(** *** More on constraints *)

(** X10.  A [max_items] or [min_items] that is set but false in a
    condition, such as 0, is taken out and not passed on in any form: when
    the length of the object is [None], as it is unless the call sets it,
    the keyword arguments have neither the length nor the items key, and
    [extra] has no items key and holds under the length key the [None] of
    the object. *)
Theorem falsy_items_dropped kwarg_definition_ :
  let fields := kwarg_fields kwarg_definition_ in
  NoDup (dict_keys fields) -> "extra" ∉ dict_keys fields ->
  exists meta extra,
    create_meta_kwargs kwarg_definition_ = Ok meta
    /\ dict_get meta "extra" = Some (PyDict extra)
    /\ (forall v, dict_get fields "max_items" = Some v -> truthy v = false ->
          dict_get fields "max_length" = Some PyNone ->
          dict_get meta "max_length" = None /\ dict_get meta "max_items" = None
          /\ dict_get extra "max_items" = None
          /\ dict_get extra "max_length" = Some PyNone)
    /\ (forall v, dict_get fields "min_items" = Some v -> truthy v = false ->
          dict_get fields "min_length" = Some PyNone ->
          dict_get meta "min_length" = None /\ dict_get meta "min_items" = None
          /\ dict_get extra "min_items" = None
          /\ dict_get extra "min_length" = Some PyNone).
Proof.
  intros fields Hnd Hex.
  destruct (create_meta_kwargs_spec kwarg_definition_ Hnd Hex)
    as (meta & extra & Hc & He & Hm & Hx).
  cbv zeta in Hm, Hx.
  pose proof (fun k v => simple_asdict_keeps kwarg_definition_ k v Hnd) as Hkeep.
  fold fields in Hkeep.
  exists meta, extra. split; [exact Hc|]. split; [exact He|]. split.
  - intros v Hv Ht Hlen.
    assert (Hv' : dict_get (simple_asdict kwarg_definition_) "max_items" = Some v).
    { apply Hkeep; [exact Hv|]. intros ->. discriminate Ht. }
    assert (Hlen' : dict_get (simple_asdict kwarg_definition_) "max_length" = Some PyNone).
    { apply Hkeep; [exact Hlen|discriminate]. }
    rewrite !Hm by discriminate. rewrite !Hx.
    rewrite Hlen', Hv'. cbn [default]; unfold id.
    rewrite Ht. cbn [andb is_none negb].
    rewrite (bool_decide_eq_true_2 ("max_items" = "max_items")) by reflexivity.
    rewrite (bool_decide_eq_false_2 ("max_items" = "max_length")) by discriminate.
    rewrite (bool_decide_eq_false_2 ("min_items" = "max_length")) by discriminate.
    rewrite (bool_decide_eq_false_2 ("min_length" = "max_length")) by discriminate.
    rewrite (bool_decide_eq_false_2 ("min_length" = "max_items")) by discriminate.
    cbn [orb]. rewrite !andb_false_r. auto.
  - intros v Hv Ht Hlen.
    assert (Hv' : dict_get (simple_asdict kwarg_definition_) "min_items" = Some v).
    { apply Hkeep; [exact Hv|]. intros ->. discriminate Ht. }
    assert (Hlen' : dict_get (simple_asdict kwarg_definition_) "min_length" = Some PyNone).
    { apply Hkeep; [exact Hlen|discriminate]. }
    rewrite !Hm by discriminate. rewrite !Hx.
    rewrite Hlen', Hv'. cbn [default]; unfold id.
    rewrite Ht. cbn [andb is_none negb].
    rewrite (bool_decide_eq_true_2 ("min_items" = "min_items")) by reflexivity.
    rewrite (bool_decide_eq_false_2 ("max_items" = "min_length")) by discriminate.
    rewrite (bool_decide_eq_false_2 ("min_items" = "min_length")) by discriminate.
    rewrite (bool_decide_eq_false_2 ("max_length" = "min_length")) by discriminate.
    rewrite (bool_decide_eq_false_2 ("max_length" = "min_items")) by discriminate.
    rewrite orb_true_r. cbn [orb]. rewrite !andb_false_r. auto.
Qed.

(** X11.  A length that the object sets itself wins over the renamed
    items: with [min_length] known to [Meta] and set to a value other than
    [None], the keyword arguments hold that value as [min_length], whatever
    [min_items] is; likewise for [max_length]. *)
Theorem explicit_length_wins kwarg_definition_ :
  let fields := kwarg_fields kwarg_definition_ in
  NoDup (dict_keys fields) -> "extra" ∉ dict_keys fields ->
  exists meta,
    create_meta_kwargs kwarg_definition_ = Ok meta
    /\ (hasattr_Meta "min_length" = true ->
        forall w, dict_get fields "min_length" = Some w -> w <> PyNone -> w <> PyEmpty ->
          dict_get meta "min_length" = Some w)
    /\ (hasattr_Meta "max_length" = true ->
        forall w, dict_get fields "max_length" = Some w -> w <> PyNone -> w <> PyEmpty ->
          dict_get meta "max_length" = Some w).
Proof.
  intros fields Hnd Hex.
  destruct (create_meta_kwargs_spec kwarg_definition_ Hnd Hex)
    as (meta & extra & Hc & He & Hm & Hx).
  cbv zeta in Hm.
  pose proof (fun k v => simple_asdict_keeps kwarg_definition_ k v Hnd) as Hkeep.
  fold fields in Hkeep.
  exists meta. split; [exact Hc|]. split.
  - intros Hattr w Hw Hnone Hempty. rewrite Hm by discriminate.
    rewrite (bool_decide_eq_false_2 ("max_items" = "min_length")) by discriminate.
    rewrite (bool_decide_eq_false_2 ("min_items" = "min_length")) by discriminate.
    cbn [orb]. rewrite (Hkeep _ _ Hw Hempty), Hattr, (is_none_false w Hnone). reflexivity.
  - intros Hattr w Hw Hnone Hempty. rewrite Hm by discriminate.
    rewrite (bool_decide_eq_false_2 ("max_items" = "max_length")) by discriminate.
    rewrite (bool_decide_eq_false_2 ("min_items" = "max_length")) by discriminate.
    cbn [orb]. rewrite (Hkeep _ _ Hw Hempty), Hattr, (is_none_false w Hnone). reflexivity.
Qed.

(** *** Metadata and unions *)



(** *** Failures of dependencies *)



(** *** Required fields *)


End Model.

(** ** The properties on the example inputs *)

Lemma build_error_message_source_witness :
  (let m := _build_error_message example_model ["data"; "name"] "Expected `str`, got `int`"
              example_connection in
   key m = Some "name" /\ source m = Some SourceBody)
  /\ (let m := _build_error_message example_model ["database"] "Expected `str`, got `int`"
                 database_connection in
      key m = Some "database" /\ source m = Some SourceBody)
  /\ (let m := _build_error_message example_model ["session"] "Expected `str`, got `int`"
                 example_connection in
      source m = Some (SourceParam COOKIE)).
Proof.
  split; [|split].
  - destruct (build_error_message_source example_model "data" ["name"]
                "Expected `str`, got `int`" example_connection) as [H _].
    destruct (H eq_refl) as (_ & Hs & Hk).
    split; [apply Hk; [reflexivity|discriminate|reflexivity]|exact Hs].
  - destruct (build_error_message_source example_model "database" []
                "Expected `str`, got `int`" database_connection) as [H _].
    destruct (H eq_refl) as (Hk & Hs & _). split; [exact Hk|exact Hs].
  - destruct (build_error_message_source example_model "session" []
                "Expected `str`, got `int`" example_connection) as [_ H].
    destruct (H eq_refl) as (_ & _ & H2). destruct (H2 eq_refl) as [H3 _].
    apply (H3 session_field cookie_parameter); reflexivity.
Defined.

(** C2, as stated, fails in three ways.  The message for the field [dep],
    which no query parameter names and which has no parameter definition,
    has a key and no source.  The message for the query parameter
    [database], whose first key is not "data", is tagged body and not
    query.  For the path data, data, x the key is x: both "data." are
    taken out, where stripping the leading segment leaves data.x . *)
Lemma build_error_message_source_diverges :
  (let m := _build_error_message example_model ["dep"] "Expected `int`, got `str`"
              example_connection in
   key m = Some "dep" /\ source m = None /\ source m <> Some (SourceParam QUERY))
  /\ (let m := _build_error_message example_model ["database"] "Expected `int`, got `str`"
                 database_connection in
      "database" <> "data"
      /\ in_query_params database_connection "database" = true
      /\ source m = Some SourceBody /\ source m <> Some (SourceParam QUERY))
  /\ (let m := _build_error_message example_model ["data"; "data"; "x"]
                 "Expected `int`, got `str`" example_connection in
      key m = Some "x" /\ key m <> Some "data.x").
Proof. vm_compute. repeat split; discriminate. Qed.

Lemma create_exception_partition_witness :
  _create_exception example_model example_connection [dep_message; limit_message] =
    ValidationException
      "Validation failed for GET http://testserver.local/items?limit=abc"
      [limit_message]
  /\ _create_exception example_model example_connection [dep_message] =
       InternalServerException.
Proof.
  split.
  - destruct (create_exception_partition example_model example_connection
                [dep_message; limit_message]) as (_ & H & _).
    rewrite H; [reflexivity|].
    exists limit_message. split; [|reflexivity].
    apply list_elem_of_In. right. left. reflexivity.
  - destruct (create_exception_partition example_model example_connection
                [dep_message]) as (_ & _ & H).
    apply H. intros m Hm. apply list_elem_of_In in Hm.
    destruct Hm as [<-|[]]. exists "dep". split; [reflexivity|].
    unfold example_model. cbn [_dependency_name_set].
    apply elem_of_singleton. reflexivity.
Defined.

(** C3, as stated, fails: of a dependency's message and a client's message
    the exception carries the client's only, not the full list. *)
Lemma create_exception_drops_dependency_messages :
  is_client_error example_model limit_message = true
  /\ exists detail extra,
       _create_exception example_model example_connection [dep_message; limit_message]
         = ValidationException detail extra
       /\ extra = [limit_message]
       /\ extra <> [dep_message; limit_message].
Proof.
  split; [reflexivity|]. eexists _, _. split; [vm_compute; reflexivity|].
  split; [reflexivity|discriminate].
Qed.


(** C1.  On [Optional[Union[int, str]]] the code returns [Optional[int]]:
    the member [str] is gone, where the sibling path for a union without
    none keeps both members. *)
Theorem optional_union_drops_member :
  _create_annotation example_normalize_annotation optional_union_field false [] None
    = Ok (TOptional (TClass "int"), [])
  /\ _create_annotation example_normalize_annotation union_field false [] None
       = Ok (TUnion [TClass "int"; TClass "str"], []).
Proof. split; reflexivity. Qed.

(** C4.  A [NotImplementedError] that the default deserializer raises for
    a value of the class [Stamp] passes through the decode and through the
    call: what the call raises is that error, which is neither a
    [ValidationException] nor an [InternalServerException], although the
    docstring of the function promises the [InternalServerException] when
    another exception has been raised. *)
Theorem parse_values_propagates_other_exception :
  exists e,
    parse_values_from_connection_kwargs example_isinstance example_no_decoder
      example_convert_struct example_convert_value
      stamp_model example_connection_not_implemented stamp_kwargs = Raise e
    /\ e = OtherException "NotImplementedError" "no decoder for this type"
    /\ is_request_exception e = false.
Proof. eexists. split; [vm_compute; reflexivity|]. split; reflexivity. Qed.







(** ** Properties of the GUID column type *)

(** X14.  A UUID that is bound and read back is the same UUID, on every
    dialect other than PostgreSQL, DuckDB and Spanner, and other than
    Oracle when the type is not binary, provided [uuid.UUID] reads back
    the bytes and the hex text of the UUID; what is stored is the bytes of
    the UUID, or its hex text when the type is not binary. *)
Theorem guid_round_trip {py : UuidModule} self dialect u :
  dialect_in dialect ["postgresql"; "duckdb"; "spanner+spanner"] = false ->
  (binary self = false -> dialect_name dialect <> "oracle") ->
  UUID_bytes (ColBytes (uuid_bytes u)) = Ok u ->
  UUID_hex (ColStr (uuid_hex u)) = Ok u ->
  exists stored,
    process_bind_param self (ColUUID u) dialect = Ok stored
    /\ stored = (if binary self then ColBytes (uuid_bytes u) else ColStr (uuid_hex u))
    /\ process_result_value self stored dialect = Ok (ColUUID u).
Proof.
  intros Hd Hora Hb Hh. unfold dialect_in in Hd.
  apply bool_decide_eq_false in Hd. rewrite !elem_of_cons in Hd.
  assert (Hpg : dialect_in dialect ["postgresql"; "duckdb"] = false).
  { apply bool_decide_eq_false. rewrite !elem_of_cons. tauto. }
  assert (Hsp : bool_decide (dialect_name dialect = "spanner+spanner") = false).
  { apply bool_decide_eq_false. tauto. }
  unfold process_bind_param, process_result_value. rewrite Hpg. cbn [to_uuid].
  destruct (binary self) eqn:Hbin.
  - exists (ColBytes (uuid_bytes u)).
    split; [destruct (dialect_in dialect ["oracle"; "spanner+spanner"]); reflexivity|].
    split; [reflexivity|]. rewrite Hsp, Hb. reflexivity.
  - assert (Hor : dialect_in dialect ["oracle"; "spanner+spanner"] = false).
    { apply bool_decide_eq_false. rewrite !elem_of_cons.
      specialize (Hora eq_refl). intros [?|[?|[]%elem_of_nil]]; tauto. }
    rewrite Hor. exists (ColStr (uuid_hex u)).
    split; [reflexivity|]. split; [reflexivity|]. rewrite Hsp, Hh. reflexivity.
Qed.

(** X15.  Outside PostgreSQL and DuckDB a text or bytes value that
    [uuid.UUID] reads as hex text, or, when that fails with a [TypeError]
    or [ValueError], as bytes, is bound exactly like the UUID it denotes;
    when both readings fail the bind fails with the error of the second. *)
Theorem guid_binds_text_like_uuid {py : UuidModule} self dialect value :
  dialect_in dialect ["postgresql"; "duckdb"] = false ->
  (exists b, value = ColBytes b) \/ (exists s, value = ColStr s) ->
  (forall u, UUID_hex value = Ok u ->
     process_bind_param self value dialect = process_bind_param self (ColUUID u) dialect)
  /\ (forall e u, UUID_hex value = Raise e -> is_TypeError_or_ValueError e = true ->
       UUID_bytes value = Ok u ->
       process_bind_param self value dialect = process_bind_param self (ColUUID u) dialect)
  /\ (forall e e', UUID_hex value = Raise e -> is_TypeError_or_ValueError e = true ->
       UUID_bytes value = Raise e' ->
       process_bind_param self value dialect = Raise e').
Proof.
  intros Hpg Hvalue. unfold process_bind_param. rewrite Hpg.
  split; [|split].
  - intros u Hh. destruct Hvalue as [[b ->]|[s ->]]; cbn [to_uuid]; rewrite Hh; reflexivity.
  - intros e u Hh He Hb.
    destruct Hvalue as [[b ->]|[s ->]]; cbn [to_uuid]; rewrite Hh, He, Hb; reflexivity.
  - intros e e' Hh He Hb.
    destruct Hvalue as [[b ->]|[s ->]]; cbn [to_uuid]; rewrite Hh, He, Hb; reflexivity.
Qed.

(** X16.  What is bound for a UUID fits the column type that
    [load_dialect_impl] chooses, on every dialect other than Spanner: text
    for the UUID type of PostgreSQL, the 16 bytes of the UUID for
    [RAW(16)] and [BINARY(16)], the hex text for [CHAR(32)]. *)
Theorem guid_bind_fits_column {py : UuidModule} self dialect u :
  dialect_name dialect <> "spanner+spanner" ->
  process_bind_param self (ColUUID u) dialect =
    Ok (match load_dialect_impl self dialect with
        | PG_UUID => ColStr (value_str (ColUUID u))
        | ORA_RAW _ | BINARY _ => ColBytes (uuid_bytes u)
        | CHAR _ => ColStr (uuid_hex u)
        end).
Proof.
  intros Hsp. unfold process_bind_param, load_dialect_impl.
  destruct (dialect_in dialect ["postgresql"; "duckdb"]); [reflexivity|].
  cbn [to_uuid]. unfold dialect_in. destruct (bool_decide (dialect_name dialect = "oracle")) eqn:Ho.
  - apply bool_decide_eq_true in Ho. rewrite bool_decide_eq_true_2; [reflexivity|].
    rewrite Ho. apply elem_of_cons. left. reflexivity.
  - apply bool_decide_eq_false in Ho. rewrite bool_decide_eq_false_2.
    + destruct (binary self); reflexivity.
    + rewrite !elem_of_cons. intros [?|[?|[]%elem_of_nil]]; congruence.
Qed.

(** ** Properties of the logging middleware *)

Lemma dict_set_fresh {V} (d : list (string * V)) k v :
  k ∉ dict_keys d -> dict_set d k v = d ++ [(k, v)].
Proof.
  unfold dict_keys. induction d as [|[k0 v0] d IH]; intros H; [reflexivity|].
  cbn [fmap list_fmap fst] in H. apply not_elem_of_cons in H as [Hne H].
  cbn [dict_set]. rewrite bool_decide_eq_false_2 by congruence.
  rewrite (IH H). reflexivity.
Qed.

Lemma extract_response_fields_body_absent {Scope : Type} {env : LoggingEnvironment Scope}
    self serializer extracted_data fields data data' :
  include_compressed_body (config self) = false ->
  extract_response_fields self serializer extracted_data true fields data = Ok data' ->
  dict_get data "body" = None -> dict_get data' "body" = None.
Proof.
  intros Hinc. revert data. induction fields as [|k fields IH]; intros data H Hd.
  - injection H as <-. exact Hd.
  - cbn [extract_response_fields] in H. rewrite andb_true_r, Hinc in H.
    destruct (bool_decide (k = "body")) eqn:Ek.
    + apply (IH _ H Hd).
    + destruct (_serialize_value self serializer _) as [v|]; [|discriminate].
      apply (IH _ H). rewrite dict_get_set, Ek. exact Hd.
Qed.

Lemma extract_response_fields_body_raw {Scope : Type} {env : LoggingEnvironment Scope}
    self serializer extracted_data fields data data' :
  include_compressed_body (config self) = true ->
  extract_response_fields self serializer extracted_data true fields data = Ok data' ->
  "body" ∈ fields \/ dict_get data "body" = Some (extracted_get extracted_data "body") ->
  dict_get data' "body" = Some (extracted_get extracted_data "body").
Proof.
  intros Hinc. revert data. induction fields as [|k fields IH]; intros data H Hd.
  - injection H as <-. destruct Hd as [Hd|Hd]; [|exact Hd]. apply elem_of_nil in Hd as [].
  - cbn [extract_response_fields] in H. rewrite andb_true_r, Hinc in H.
    destruct (bool_decide (k = "body")) eqn:Ek.
    + apply bool_decide_eq_true in Ek as ->. apply (IH _ H). right.
      rewrite dict_get_set, bool_decide_eq_true_2; reflexivity.
    + destruct (_serialize_value self serializer _) as [v|]; [|discriminate].
      apply (IH _ H). apply bool_decide_eq_false in Ek.
      destruct Hd as [Hd|Hd].
      * left. apply elem_of_cons in Hd as [Hd|Hd]; [congruence|exact Hd].
      * right. rewrite dict_get_set, bool_decide_eq_false_2; [exact Hd|exact Ek].
Qed.

(** X17.  When the response body is compressed, the data extracted for the
    log has no [body] entry unless the configuration includes compressed
    bodies; and when it does and [body] is a log field, the entry is the
    body as the extractor gave it, neither encoded nor decoded. *)
Theorem compressed_body_logged_on_request_only {Scope : Type} {env : LoggingEnvironment Scope} self scope data scope' :
  extract_response_data self scope = (Ok data, scope') ->
  (response_inputs self scope).1.2 = true ->
  (include_compressed_body (config self) = false -> dict_get data "body" = None)
  /\ (include_compressed_body (config self) = true ->
      "body" ∈ response_log_fields (config self) ->
      dict_get data "body"
        = Some (extracted_get (response_inputs self scope).1.1.2 "body")).
Proof.
  unfold extract_response_data.
  destruct (response_inputs self scope) as [[[serializer extracted_data] compressed] scope2].
  cbn [fst snd]. intros [= H <-] ->. split.
  - intros Hinc.
    apply (extract_response_fields_body_absent _ _ _ _ _ _ Hinc H). reflexivity.
  - intros Hinc Hin.
    apply (extract_response_fields_body_raw _ _ _ _ _ _ Hinc H). left. exact Hin.
Qed.

Lemma extract_response_fields_in_order {Scope : Type} {env : LoggingEnvironment Scope}
    self serializer extracted_data compressed fields data data' :
  compressed = false \/ "body" ∉ fields ->
  NoDup fields ->
  (forall k, k ∈ fields -> k ∉ dict_keys data) ->
  extract_response_fields self serializer extracted_data compressed fields data = Ok data' ->
  exists values,
    data' = data ++ values
    /\ values.*1 = fields
    /\ Forall (fun kv => _serialize_value self serializer (extracted_get extracted_data kv.1)
                         = Ok kv.2) values.
Proof.
  revert data. induction fields as [|k fields IH]; intros data Hcond Hnd Hfresh H.
  - injection H as <-. exists []. rewrite app_nil_r. auto.
  - cbn [extract_response_fields] in H.
    apply NoDup_cons in Hnd as [Hk Hnd].
    assert (Hnot : bool_decide (k = "body") && compressed = false).
    { destruct Hcond as [->|Hb]; [apply andb_false_r|].
      rewrite bool_decide_eq_false_2; [reflexivity|].
      intros ->. apply Hb. left. }
    assert (Hcond' : compressed = false \/ "body" ∉ fields).
    { destruct Hcond as [?|Hb]; [left; assumption|right].
      intros Hin. apply Hb. right. exact Hin. }
    rewrite Hnot in H.
    destruct (_serialize_value self serializer (extracted_get extracted_data k))
      as [v|] eqn:Ev; [|discriminate].
    rewrite dict_set_fresh in H by (apply Hfresh; left).
    destruct (IH (data ++ [(k, v)]) Hcond' Hnd) as (values & -> & Hkeys & Hvals).
    + intros k' Hk'. unfold dict_keys. rewrite fmap_app, elem_of_app.
      intros [Hin|Hin].
      * apply (Hfresh k'); [right; exact Hk'|exact Hin].
      * cbn in Hin. apply list_elem_of_singleton in Hin as ->. contradiction.
    + exact H.
    + exists ((k, v) :: values). rewrite <- app_assoc. split; [reflexivity|].
      split; [cbn; rewrite Hkeys; reflexivity|]. constructor; [exact Ev|exact Hvals].
Qed.

(** X18.  The order of the log fields is the order of the log: when the
    log fields are distinct, none of them is [message], and the body is
    not left out for compression, the extracted data is the message
    followed by one entry per log field, in the order of the fields, each
    holding the serialized value of the extractor; and the logger is
    called with the message and these values, for a logger that is not
    structured as the text of the message, a colon and the entries as
    [key=value] separated by commas. *)
Theorem response_log_in_field_order {Scope : Type} {env : LoggingEnvironment Scope} self scope data scope' :
  NoDup (response_log_fields (config self)) ->
  "message" ∉ response_log_fields (config self) ->
  (response_inputs self scope).1.2 = false \/ "body" ∉ response_log_fields (config self) ->
  extract_response_data self scope = (Ok data, scope') ->
  exists values,
    data = ("message", response_log_message (config self)) :: values
    /\ values.*1 = response_log_fields (config self)
    /\ Forall (fun kv =>
                 _serialize_value self (response_inputs self scope).1.1.1
                   (extracted_get (response_inputs self scope).1.1.2 kv.1) = Ok kv.2)
              values
    /\ log_response self scope =
         (Ok (if is_struct_logger self
              then InfoValues (response_log_message (config self)) values
              else InfoText
                     (format_value (response_log_message (config self)) +:+ ": " +:+
                      str_join ", "
                        (map (fun kv => kv.1 +:+ "=" +:+ format_value kv.2) values))),
          scope').
Proof.
  intros Hnd Hmsg Hcond Hex. unfold log_response. rewrite Hex.
  unfold extract_response_data in Hex.
  destruct (response_inputs self scope) as [[[serializer extracted_data] compressed] scope2].
  cbn [fst snd] in *. injection Hex as H <-.
  assert (Hfresh : forall k, k ∈ response_log_fields (config self) ->
                     k ∉ dict_keys [("message", response_log_message (config self))]).
  { intros k Hk Hin. cbn in Hin. apply list_elem_of_singleton in Hin as ->. contradiction. }
  destruct (extract_response_fields_in_order _ _ _ _ _ _ _ Hcond Hnd Hfresh H)
    as (values & -> & Hkeys & Hvals).
  exists values. split; [reflexivity|]. split; [exact Hkeys|]. split; [exact Hvals|].
  unfold log_message. cbn [app dict_get dict_del].
  rewrite (bool_decide_eq_true_2 ("message" = "message")) by reflexivity.
  destruct (is_struct_logger self); reflexivity.
Qed.

(** ** The further properties on the example inputs *)

Lemma ERR_RE_search_path_witness :
  ERR_RE_search "Expected `int`, got `str` - at `$.items[0]`" = Some "items[0]"
  /\ replay_keys "limit" (ValidationError "Expected `int`, got `str` - at `$.items[0]`")
       = ["limit"; "items[0]"].
Proof.
  destruct (ERR_RE_search_path "Expected `int`, got `str` - at " "items[0]" "") as [H1 H2];
    [reflexivity|discriminate|reflexivity|left; reflexivity|].
  split; [exact H1|exact (H2 "limit")].
Defined.

Lemma union_keeps_members_witness :
  exists members,
    TUnion [TClass "int"; TClass "str"] = TUnion members
    /\ members <> []
    /\ Forall2
         (fun inner_type member =>
            exists writes',
              _create_annotation example_normalize_annotation inner_type false [] None
                = Ok (member, writes'))
         (List.filter (fun t => negb (is_none_type (annotation t))) (inner_types union_field))
         members.
Proof.
  apply (union_keeps_members example_normalize_annotation union_field false [] None
           (TUnion [TClass "int"; TClass "str"]) []); reflexivity.
Defined.

Lemma collect_errors_in_order_witness :
  NoDup (_collect_errors example_convert_value example_model
           (connection_deserializer example_isinstance example_no_decoder example_connection)
           invalid_limit_kwargs).*1.
Proof.
  destruct (collect_errors_in_order example_convert_value example_model
              (connection_deserializer example_isinstance example_no_decoder example_connection)
              invalid_limit_kwargs) as (_ & _ & H).
  apply H. apply (bool_decide_unpack _). vm_compute. exact I.
Defined.

Lemma empty_kwargs_report_every_field_witness :
  parse_values_from_connection_kwargs example_isinstance example_no_decoder
    example_convert_struct example_convert_value example_model example_connection ∅
  = Raise (_create_exception example_model example_connection
             (map (fun field_name =>
                     _build_error_message example_model [field_name]
                       "Object missing required field `limit`" example_connection)
                  (dict_keys (_fields example_model)))).
Proof.
  destruct (empty_kwargs_report_every_field example_isinstance example_no_decoder
              example_convert_struct example_convert_value example_model example_connection)
    as [_ H].
  apply H. reflexivity.
Defined.

Lemma validation_exception_withholds_dependencies_witness :
  [mkErrorMessage (Some "limit") "Expected `int`" (Some (SourceParam QUERY))] <> []
  /\ Forall (fun m => forall k, key m = Some k -> k ∉ _dependency_name_set example_model)
       [mkErrorMessage (Some "limit") "Expected `int`" (Some (SourceParam QUERY))].
Proof.
  apply (validation_exception_withholds_dependencies example_isinstance example_no_decoder
           example_convert_struct example_convert_value example_model example_connection
           invalid_limit_kwargs (ValidationError "Expected `int` - at `$.limit`")
           "Validation failed for GET http://testserver.local/items?limit=abc");
    vm_compute; reflexivity.
Defined.

Lemma structured_error_without_location_witness :
  exists detail extra,
    parse_values_from_connection_kwargs example_isinstance example_no_decoder
      (failing_convert_struct (ExtendedMsgSpecValidationError example_sub_errors "errors"))
      example_convert_value example_model example_connection complete_kwargs
      = Raise (ValidationException detail extra)
    /\ mkErrorMessage None "Unsupported value" None ∈ extra.
Proof.
  apply (structured_error_without_location example_isinstance example_no_decoder
           (failing_convert_struct (ExtendedMsgSpecValidationError example_sub_errors "errors"))
           example_convert_value example_model example_connection complete_kwargs
           example_sub_errors "errors" (mkSubError [] "Unsupported value - details")).
  - reflexivity.
  - apply list_elem_of_In. left. reflexivity.
  - reflexivity.
Defined.

Lemma no_dependencies_all_messages_witness :
  parse_values_from_connection_kwargs example_isinstance example_no_decoder
    (failing_convert_struct (ExtendedMsgSpecValidationError example_sub_errors "errors"))
    example_convert_value stamp_model example_connection stamp_kwargs
  = Raise (ValidationException
             ("Validation failed for " +:+ connection_method example_connection +:+ " "
                +:+ url example_connection)
             (structured_messages stamp_model example_connection example_sub_errors))
  /\ length (structured_messages stamp_model example_connection example_sub_errors)
     = length example_sub_errors.
Proof.
  apply (no_dependencies_all_messages example_isinstance example_no_decoder
           (failing_convert_struct (ExtendedMsgSpecValidationError example_sub_errors "errors"))
           example_convert_value stamp_model example_connection stamp_kwargs
           example_sub_errors "errors"); [reflexivity|discriminate|reflexivity].
Defined.

Lemma create_model_name_witness :
  match create example_normalize_annotation example_validate_signature_dependencies
          example_hasattr_Meta example_is_class_and_subclass example_call_type
          ∅ (mkAnyCallable (Some "<lambda>") None) false example_signature [] with
  | Ok (cls, _) => model_name cls = "anonymous_signature_model"
  | Raise _ => False
  end.
Proof.
  destruct (create _ _ _ _ _ _ _ _ _ _) as [[cls writes]|e] eqn:E.
  - destruct (create_model_name _ _ _ _ _ _ _ _ _ _ _ _ E) as (_ & _ & _ & H & _).
    apply H. right. right. reflexivity.
  - vm_compute in E. discriminate E.
Defined.

Lemma created_model_replay_witness :
  match create example_normalize_annotation example_validate_signature_dependencies
          example_hasattr_Meta example_is_class_and_subclass example_call_type
          ∅ example_fn false example_signature [] with
  | Ok (cls, _) =>
      _fields cls = parameters example_signature
      /\ dict_keys (__annotations__ cls) = dict_keys (_fields cls)
  | Raise _ => False
  end.
Proof.
  destruct (create _ _ _ _ _ _ _ _ _ _) as [[cls writes]|e] eqn:E.
  - destruct (created_model_replay example_convert_value _ _ _ _ _ _ _ _ _ _ _ _ E)
      as (H1 & H2 & _).
    + repeat constructor.
    + split; [exact H1|exact H2].
  - vm_compute in E. discriminate E.
Defined.

Lemma falsy_items_dropped_witness :
  exists meta extra,
    create_meta_kwargs example_hasattr_Meta zero_items_parameter = Ok meta
    /\ dict_get meta "extra" = Some (PyDict extra)
    /\ dict_get meta "max_length" = None /\ dict_get meta "max_items" = None
    /\ dict_get extra "max_items" = None /\ dict_get extra "max_length" = Some PyNone.
Proof.
  destruct (falsy_items_dropped example_hasattr_Meta zero_items_parameter)
    as (meta & extra & Hc & He & Hmax & _).
  - apply (bool_decide_unpack _). vm_compute. exact I.
  - apply (bool_decide_unpack _). vm_compute. exact I.
  - exists meta, extra. split; [exact Hc|]. split; [exact He|].
    apply (Hmax (PyInt 0)); reflexivity.
Defined.

Lemma explicit_length_wins_witness :
  exists meta,
    create_meta_kwargs example_hasattr_Meta both_lengths_parameter = Ok meta
    /\ dict_get meta "min_length" = Some (PyInt 3)
    /\ dict_get meta "max_length" = Some (PyInt 5).
Proof.
  destruct (explicit_length_wins example_hasattr_Meta both_lengths_parameter)
    as (meta & Hc & Hmin & Hmax).
  - apply (bool_decide_unpack _). vm_compute. exact I.
  - apply (bool_decide_unpack _). vm_compute. exact I.
  - exists meta. split; [exact Hc|]. split.
    + apply Hmin; [reflexivity|reflexivity|discriminate|discriminate].
    + apply Hmax; [reflexivity|reflexivity|discriminate|discriminate].
Defined.



Lemma guid_round_trip_witness :
  (exists stored,
      process_bind_param (py := example_uuid_module) (mkGUID true) (ColUUID example_uuid) sqlite
        = Ok stored
      /\ stored = ColBytes (example_uuid_bytes example_uuid)
      /\ process_result_value (py := example_uuid_module) (mkGUID true) stored sqlite
           = Ok (ColUUID example_uuid))
  /\ (exists stored,
        process_bind_param (py := example_uuid_module) (mkGUID false) (ColUUID example_uuid)
          sqlite = Ok stored
        /\ stored = ColStr (example_uuid_hex example_uuid)
        /\ process_result_value (py := example_uuid_module) (mkGUID false) stored sqlite
             = Ok (ColUUID example_uuid)).
Proof.
  split.
  - apply (guid_round_trip (py := example_uuid_module) (mkGUID true) sqlite example_uuid);
      [reflexivity|discriminate|reflexivity|reflexivity].
  - apply (guid_round_trip (py := example_uuid_module) (mkGUID false) sqlite example_uuid);
      [reflexivity|discriminate|reflexivity|reflexivity].
Defined.

Lemma guid_binds_text_like_uuid_witness :
  process_bind_param (py := example_uuid_module) (mkGUID true) (ColStr "xG") sqlite
    = process_bind_param (py := example_uuid_module) (mkGUID true) (ColUUID example_uuid) sqlite
  /\ process_bind_param (py := example_uuid_module) (mkGUID true) (ColBytes "G") sqlite
     = process_bind_param (py := example_uuid_module) (mkGUID true) (ColUUID example_uuid) sqlite
  /\ process_bind_param (py := example_uuid_module) (mkGUID true) (ColStr "no uuid") sqlite
     = Raise (OtherException "TypeError" "bytes expected").
Proof.
  split; [|split].
  - destruct (guid_binds_text_like_uuid (py := example_uuid_module) (mkGUID true) sqlite
                (ColStr "xG")) as (H & _); [reflexivity|right; eauto|].
    apply H. reflexivity.
  - destruct (guid_binds_text_like_uuid (py := example_uuid_module) (mkGUID true) sqlite
                (ColBytes "G")) as (_ & H & _); [reflexivity|left; eauto|].
    eapply H; reflexivity.
  - destruct (guid_binds_text_like_uuid (py := example_uuid_module) (mkGUID true) sqlite
                (ColStr "no uuid")) as (_ & _ & H); [reflexivity|right; eauto|].
    eapply H; reflexivity.
Defined.

Lemma guid_bind_fits_column_witness :
  process_bind_param (py := example_uuid_module) (mkGUID false) (ColUUID example_uuid) oracle
    = Ok (ColBytes (example_uuid_bytes example_uuid))
  /\ load_dialect_impl (mkGUID false) oracle = ORA_RAW 16.
Proof.
  split; [|reflexivity].
  rewrite (guid_bind_fits_column (py := example_uuid_module) (mkGUID false) oracle example_uuid);
    [reflexivity|discriminate].
Defined.

Lemma compressed_body_logged_on_request_only_witness :
  match extract_response_data (env := example_logging_environment)
          (example_middleware false) compressed_scope with
  | (Ok data, _) => dict_get data "body" = None
  | _ => False
  end
  /\ match extract_response_data (env := example_logging_environment)
             (example_middleware true) compressed_scope with
     | (Ok data, _) => dict_get data "body" = Some (LogBytes "ok")
     | _ => False
     end.
Proof.
  split.
  - destruct (extract_response_data _ _) as [[data|e] scope'] eqn:E.
    + destruct (compressed_body_logged_on_request_only _ _ _ _ E) as [H _];
        [reflexivity|]. apply H. reflexivity.
    + vm_compute in E. discriminate E.
  - destruct (extract_response_data _ _) as [[data|e] scope'] eqn:E.
    + destruct (compressed_body_logged_on_request_only _ _ _ _ E) as [_ H];
        [reflexivity|].
      rewrite H; [reflexivity|reflexivity|].
      apply list_elem_of_In. vm_compute. auto.
    + vm_compute in E. discriminate E.
Defined.

Lemma response_log_in_field_order_witness :
  log_response (env := example_logging_environment) (example_middleware false) plain_scope
  = (Ok (InfoText "HTTP Response: status_code=200, headers={}, body=ok"), []).
Proof.
  destruct (extract_response_data (env := example_logging_environment)
              (example_middleware false) plain_scope) as [[data|e] scope'] eqn:E.
  - destruct (response_log_in_field_order (env := example_logging_environment)
                (example_middleware false) plain_scope data scope')
      as (values & Hd & _ & _ & Hlog).
    + apply (bool_decide_unpack _). vm_compute. exact I.
    + apply (bool_decide_unpack _). vm_compute. exact I.
    + left. reflexivity.
    + exact E.
    + rewrite Hlog. vm_compute in E. injection E as <- <-.
      injection Hd as <-. reflexivity.
  - vm_compute in E. discriminate E.
Defined.
